(** * network-graph: camera, coordinate conversion and refresh scheduling

    A shallow embedding of [src/core/camera.ts] (the [Camera] class) and of
    the renderer class [Sigma] (frame scheduling, graph event handlers, node
    display-data defaults, graph dimensions and coordinate conversion),
    together with the properties the specification states about them.

    JavaScript numbers are IEEE 754 binary64 values and are modelled by Rocq's
    primitive [float]; [===] on numbers is [PrimFloat.eqb], so that [NaN] is
    different from itself and [+0] equals [-0], as in the source language. *)

From Stdlib Require Import ZArith Floats Bool List String Lia.
From stdpp Require Import base option list gmap strings.
Import ListNotations.

Set Default Proof Using "Type".

(* ===================================================================== *)
(** * JavaScript values *)
(* ===================================================================== *)

Module JS.

(** The primitive values a property of a plain object may hold. *)
Inductive value : Type :=
| VUndefined
| VNull
| VBool (b : bool)
| VNum (n : float)
| VStr (s : string).

(** [typeof v === "number"] *)
Definition is_number (v : value) : bool :=
  match v with VNum _ => true | _ => false end.

(** ToBoolean: what [if (v)], [!v] and [v || w] test. *)
Definition truthy (v : value) : bool :=
  match v with
  | VUndefined | VNull => false
  | VBool b => b
  | VNum n => negb ((n =? 0)%float || is_nan n)
  | VStr s => negb (String.eqb s "")
  end.

(** ToBoolean of a number: [0], [-0] and [NaN] are falsy. *)
Definition truthy_num (n : float) : bool := truthy (VNum n).

(** [a === b] on two numbers. *)
Definition strict_eq (a b : float) : bool := (a =? b)%float.

(** [Math.max(a, b)]: [NaN] if either argument is [NaN]; [+0] is larger
    than [-0]. *)
Definition Math_max (a b : float) : float :=
  if is_nan a || is_nan b then nan
  else if (a <? b)%float then b
  else if (b <? a)%float then a
  else match classify a with NZero => b | _ => a end.

(** [Math.min(a, b)]: [NaN] if either argument is [NaN]; [-0] is smaller
    than [+0]. *)
Definition Math_min (a b : float) : float :=
  if is_nan a || is_nan b then nan
  else if (a <? b)%float then a
  else if (b <? a)%float then b
  else match classify a with PZero => b | _ => a end.

(** [a || b] on numbers. *)
Definition or_num (a b : float) : float := if truthy_num a then a else b.

End JS.

(* ===================================================================== *)
(** * The camera ([src/core/camera.ts]) *)
(* ===================================================================== *)

(** [CameraState] of [types]: the four numbers a camera is made of. *)
Module CameraState.

Record t : Type := mk { x : float; y : float; angle : float; ratio : float }.

End CameraState.

(** [Partial<CameraState>]: an object on which each of the four properties
    may be missing ([VUndefined]) or hold any value. *)
Module PartialState.

Record t : Type := mk { x : JS.value; y : JS.value; angle : JS.value; ratio : JS.value }.

(** The object literal [{}]. *)
Definition empty : t := mk JS.VUndefined JS.VUndefined JS.VUndefined JS.VUndefined.

(** A full [CameraState] passed where a partial one is expected. *)
Definition of_state (s : CameraState.t) : t :=
  mk (JS.VNum (CameraState.x s)) (JS.VNum (CameraState.y s))
     (JS.VNum (CameraState.angle s)) (JS.VNum (CameraState.ratio s)).

End PartialState.

Module Camera.

Import JS.

(** The fields of the class. [minRatio] and [maxRatio] are [number | null];
    [nextFrame] is the handle of a pending animation frame. *)
Record t : Type := mk {
  x : float;
  y : float;
  angle : float;
  ratio : float;
  minRatio : option float;
  maxRatio : option float;
  nextFrame : option positive;
  previousState : option CameraState.t;
  enabled : bool
}.

(** What a camera emits. *)
Inductive event : Type :=
| Updated (state : CameraState.t).

Definition set_x (v : float) (c : t) : t :=
  mk v (y c) (angle c) (ratio c) (minRatio c) (maxRatio c) (nextFrame c) (previousState c) (enabled c).
Definition set_y (v : float) (c : t) : t :=
  mk (x c) v (angle c) (ratio c) (minRatio c) (maxRatio c) (nextFrame c) (previousState c) (enabled c).
Definition set_angle (v : float) (c : t) : t :=
  mk (x c) (y c) v (ratio c) (minRatio c) (maxRatio c) (nextFrame c) (previousState c) (enabled c).
Definition set_ratio (v : float) (c : t) : t :=
  mk (x c) (y c) (angle c) v (minRatio c) (maxRatio c) (nextFrame c) (previousState c) (enabled c).
Definition set_minRatio (v : option float) (c : t) : t :=
  mk (x c) (y c) (angle c) (ratio c) v (maxRatio c) (nextFrame c) (previousState c) (enabled c).
Definition set_maxRatio (v : option float) (c : t) : t :=
  mk (x c) (y c) (angle c) (ratio c) (minRatio c) v (nextFrame c) (previousState c) (enabled c).
Definition set_previousState (v : option CameraState.t) (c : t) : t :=
  mk (x c) (y c) (angle c) (ratio c) (minRatio c) (maxRatio c) (nextFrame c) v (enabled c).
Definition set_enabled (v : bool) (c : t) : t :=
  mk (x c) (y c) (angle c) (ratio c) (minRatio c) (maxRatio c) (nextFrame c) (previousState c) v.

(** [getState()] *)
Definition getState (c : t) : CameraState.t :=
  CameraState.mk (x c) (y c) (angle c) (ratio c).

(** The state the field initialisers give: [x = 0.5], [y = 0.5],
    [angle = 0], [ratio = 1]. *)
Definition default_state : CameraState.t :=
  CameraState.mk 0.5%float 0.5%float 0%float 1%float.

(** [new Camera()]: the field initialisers, then the constructor body
    [this.previousState = this.getState()]. *)
Definition new : t :=
  let c := mk 0.5%float 0.5%float 0%float 1%float None None None None true in
  set_previousState (Some (getState c)) c.

(** [enable()] and [disable()] *)
Definition enable (c : t) : t := set_enabled true c.
Definition disable (c : t) : t := set_enabled false c.

(** [hasState(state)] *)
Definition hasState (c : t) (state : CameraState.t) : bool :=
  strict_eq (x c) (CameraState.x state) &&
  strict_eq (y c) (CameraState.y state) &&
  strict_eq (ratio c) (CameraState.ratio state) &&
  strict_eq (angle c) (CameraState.angle state).

(** [getPreviousState()] *)
Definition getPreviousState (c : t) : option CameraState.t :=
  match previousState c with
  | None => None
  | Some state =>
      Some (CameraState.mk (CameraState.x state) (CameraState.y state)
                           (CameraState.angle state) (CameraState.ratio state))
  end.

(** [getBoundedRatio(ratio)] *)
Definition getBoundedRatio (c : t) (ratio : float) : float :=
  let r := ratio in
  let r := match minRatio c with Some m => Math_max r m | None => r end in
  let r := match maxRatio c with Some m => Math_min r m | None => r end in
  r.

(** [validateState(state)] *)
Definition validateState (c : t) (state : PartialState.t) : PartialState.t :=
  let validatedState := PartialState.empty in
  let validatedState :=
    match PartialState.x state with
    | VNum n => PartialState.mk (VNum n) (PartialState.y validatedState)
                  (PartialState.angle validatedState) (PartialState.ratio validatedState)
    | _ => validatedState
    end in
  let validatedState :=
    match PartialState.y state with
    | VNum n => PartialState.mk (PartialState.x validatedState) (VNum n)
                  (PartialState.angle validatedState) (PartialState.ratio validatedState)
    | _ => validatedState
    end in
  let validatedState :=
    match PartialState.angle state with
    | VNum n => PartialState.mk (PartialState.x validatedState) (PartialState.y validatedState)
                  (VNum n) (PartialState.ratio validatedState)
    | _ => validatedState
    end in
  let validatedState :=
    match PartialState.ratio state with
    | VNum n => PartialState.mk (PartialState.x validatedState) (PartialState.y validatedState)
                  (PartialState.angle validatedState) (VNum (getBoundedRatio c n))
    | _ => validatedState
    end in
  validatedState.

(** [isAnimated()] *)
Definition isAnimated (c : t) : bool :=
  match nextFrame c with Some _ => true | None => false end.

(** [setState(state)]: the camera after the call and what it emitted.
    [this.previousState] has just been assigned when [hasState] reads it. *)
Definition setState (state : PartialState.t) (c : t) : t * list event :=
  if negb (enabled c) then (c, [])
  else
    let previous := getState c in
    let c := set_previousState (Some previous) c in
    let validState := validateState c state in
    let c := match PartialState.x validState with VNum n => set_x n c | _ => c end in
    let c := match PartialState.y validState with VNum n => set_y n c | _ => c end in
    let c := match PartialState.angle validState with VNum n => set_angle n c | _ => c end in
    let c := match PartialState.ratio validState with VNum n => set_ratio n c | _ => c end in
    if negb (hasState c previous) then (c, [Updated (getState c)])
    else (c, []).

(** [updateState(updater)] *)
Definition updateState (updater : CameraState.t -> PartialState.t) (c : t) : t * list event :=
  setState (updater (getState c)) c.

(** [Camera.from(state)] and [copy()]; the new camera has no listener, so
    what it emits is dropped. *)
Definition from (state : CameraState.t) : t :=
  fst (setState (PartialState.of_state state) new).
Definition copy (c : t) : t := from (getState c).

(** A sequence of [setState] calls, in order. *)
Definition setStates (calls : list PartialState.t) (c : t) : t :=
  fold_left (fun c state => fst (setState state c)) calls c.

End Camera.

(* ===================================================================== *)
(** * Plain objects, geometry and the graph *)
(* ===================================================================== *)

(** A plain object whose own properties hold primitive values: node and
    edge attributes, and the display data made from them. *)
Abbreviation object := (gmap string JS.value).

Module Obj.

Import JS.

(** [o.k]: a missing property reads as [undefined]. *)
Definition get (o : object) (k : string) : value := default VUndefined (o !! k).

(** [o.hasOwnProperty(k)] *)
Definition hasOwnProperty (o : object) (k : string) : bool :=
  match o !! k with Some _ => true | None => false end.

(** [a === b] on primitive values. *)
Definition strict_equal (a b : value) : bool :=
  match a, b with
  | VUndefined, VUndefined => true
  | VNull, VNull => true
  | VBool p, VBool q => Bool.eqb p q
  | VNum m, VNum n => strict_eq m n
  | VStr s, VStr u => String.eqb s u
  | _, _ => false
  end.

End Obj.

(** A plain object [{}] used as a dictionary from keys to records, such as
    the two display-data caches. It has the properties assigned to it, its
    own, and inherits from its prototype, which is [Object.prototype] until
    an assignment to the key ["__proto__"] replaces it: that assignment
    calls the setter [Object.prototype] has under this name and creates no
    property. The records are plain objects themselves. *)
Module Dict.

Import JS.

(** The names of the properties of [Object.prototype]; all of them but
    ["__proto__"] hold a function. *)
Definition Object_prototype : list string :=
  ["constructor"; "__defineGetter__"; "__defineSetter__"; "hasOwnProperty";
   "__lookupGetter__"; "__lookupSetter__"; "isPrototypeOf"; "propertyIsEnumerable";
   "toString"; "valueOf"; "__proto__"; "toLocaleString"].

(** The own properties, and the record that an assignment to ["__proto__"]
    made the prototype, if there was one. *)
Record t : Type := mk {
  own : gmap string object;
  proto : option object
}.

(** The object literal [{}]. *)
Definition empty : t := mk ∅ None.

(** What [d[k]] evaluates to: a record (an own property, or the prototype
    itself under the key ["__proto__"]), a property of the record that is
    the prototype, a function of [Object.prototype], [Object.prototype]
    itself, or [undefined]. *)
Inductive found : Type :=
| Entry (o : object)
| Inherited (v : value)
| Method
| ObjectPrototype
| Nothing.

(** [d[k]]: the own property, else what the prototype chain has. *)
Definition get (k : string) (d : t) : found :=
  match own d !! k with
  | Some o => Entry o
  | None =>
      match proto d ≫= (fun p => p !! k) with
      | Some v => Inherited v
      | None =>
          if String.eqb k "__proto__"
          then match proto d with Some p => Entry p | None => ObjectPrototype end
          else if bool_decide (k ∈ Object_prototype) then Method
          else Nothing
      end
  end.

(** [d[k] = o], [o] being an object. Under the key ["__proto__"] the
    inherited setter runs, unless a property of that name shadows it. *)
Definition set (k : string) (o : object) (d : t) : t :=
  if String.eqb k "__proto__"
     && bool_decide (own d !! k = None)
     && bool_decide (proto d ≫= (fun p => p !! k) = None)
  then mk (own d) (Some o)
  else mk (<[k := o]> (own d)) (proto d).

(** [delete d[k]]: an own property goes, nothing else does. *)
Definition remove (k : string) (d : t) : t := mk (delete k (own d)) (proto d).

(** ToBoolean of what was found. *)
Definition truthy (f : found) : bool :=
  match f with
  | Entry _ | Method | ObjectPrototype => true
  | Inherited v => JS.truthy v
  | Nothing => false
  end.

(** What [type], [hidden], [highlighted] and [zIndex] read on what was
    found: the properties of the record; nothing on a function, on
    [Object.prototype] or on a primitive value; and reading a property of
    [undefined] or [null] is a [TypeError] ([None]). *)
Definition properties (f : found) : option object :=
  match f with
  | Entry o => Some o
  | Method | ObjectPrototype => Some ∅
  | Inherited (VUndefined | VNull) => None
  | Inherited _ => Some ∅
  | Nothing => None
  end.

End Dict.

(** The events of the renderer that the modelled methods emit, from
    [SigmaAdditionalEvents]. *)
Module Emitted.

Inductive t : Type :=
| beforeRender
| afterRender
| resize
| kill.

(** Whether two of them are the same event. *)
Definition same (a b : t) : bool :=
  match a, b with
  | beforeRender, beforeRender | afterRender, afterRender
  | resize, resize | kill, kill => true
  | _, _ => false
  end.

End Emitted.

(** [Coordinates], [Dimensions] and bounding boxes of [types]; an [Extent]
    is the pair [[min, max]]. *)
Module Coordinates.

Record t : Type := mk { x : float; y : float }.

End Coordinates.

Module Dimensions.

Record t : Type := mk { width : float; height : float }.

End Dimensions.

Module BBox.

Record t : Type := mk { x : float * float; y : float * float }.

End BBox.

(** The graph collaborator: its nodes and edges in iteration order, each
    with its attributes. *)
Module Graph.

Record t : Type := mk {
  nodes : list (string * object);
  edges : list (string * object)
}.

(** [graph.order] *)
Definition order (g : t) : nat := length (nodes g).

End Graph.

(** The settings the renderer reads ([src/settings.ts]). *)
Module Settings.

Record t : Type := mk {
  defaultNodeColor : string;
  defaultNodeType : string;
  defaultEdgeColor : string;
  defaultEdgeType : string;
  stagePadding : float;
  labelDensity : float;
  nodeReducer : option (string -> object -> object);
  edgeReducer : option (string -> object -> object);
  zIndex : bool;
  minCameraRatio : option float;
  maxCameraRatio : option float;
  allowInvalidContainer : bool;
  nodeProgramClasses : list string
}.

(** [DEFAULT_SETTINGS], resolved with [DEFAULT_NODE_PROGRAM_CLASSES]. *)
Definition DEFAULT_SETTINGS : t :=
  mk "#999" "circle" "#ccc" "line" 30%float 1%float None None false None None false ["circle"].

Inductive invalid : Type :=
| InvalidLabelDensity
| InvalidCameraRatioBoundaries.

(** [validateSettings(settings)]: [None] when nothing is thrown. *)
Definition validateSettings (settings : t) : option invalid :=
  if (labelDensity settings <? 0)%float then Some InvalidLabelDensity
  else
    match minCameraRatio settings, maxCameraRatio settings with
    | Some lo, Some hi =>
        if (hi <? lo)%float then Some InvalidCameraRatioBoundaries else None
    | _, _ => None
    end.

End Settings.

(** [CoordinateConversionOverride] of [types]: every field is optional. *)
Module Override.

Record t (Matrix : Type) : Type := mk {
  cameraState : option CameraState.t;
  matrix : option Matrix;
  viewportDimensions : option Dimensions.t;
  graphDimensions : option Dimensions.t;
  padding : option float
}.

Arguments mk {Matrix}.
Arguments cameraState {Matrix}.
Arguments matrix {Matrix}.
Arguments viewportDimensions {Matrix}.
Arguments graphDimensions {Matrix}.
Arguments padding {Matrix}.

(** The default argument [{}]. *)
Definition empty {Matrix : Type} : t Matrix := mk None None None None None.

End Override.

(** What the renderer imports from [./utils] and [./utils/matrices], and the
    conversions of the language itself that it relies on. None of them is
    part of the sources, so the renderer is modelled over any implementation
    of this interface. *)
Class Utils : Type := {
  Matrix : Type;
  identity : Matrix;
  matrixFromCamera :
    CameraState.t -> Dimensions.t -> Dimensions.t -> float -> bool -> Matrix;
  multiplyVec2 : Matrix -> Coordinates.t -> Coordinates.t;
  getMatrixImpact : Matrix -> CameraState.t -> Dimensions.t -> float;
  graphExtent : Graph.t -> BBox.t;
  (** [createNormalizationFunction(extent)], and its [applyTo] and [inverse] *)
  normalization : BBox.t -> Coordinates.t -> Coordinates.t;
  normalization_applyTo : BBox.t -> object -> object;
  normalization_inverse : BBox.t -> Coordinates.t -> Coordinates.t;
  zIndexOrdering :
    JS.value * JS.value -> (string -> JS.value) -> list string -> list string;
  (** [String(n)] for a number [n] *)
  number_to_string : float -> string;
  (** [a < b] on arbitrary values *)
  less_than : JS.value -> JS.value -> bool
}.

(* ===================================================================== *)
(** * The renderer ([Sigma]) *)
(* ===================================================================== *)

Module Sigma.

Import JS Obj.

(** What the renderer throws. *)
Inductive error : Type :=
| NoPosition (key : string)
| NoProgram (type : string)
| NoWidth
| NoHeight
| InvalidSettings (why : Settings.invalid)
| TypeError.

(** What the renderer emits, and the calls it makes to the frame scheduler
    and to the draw programs, in the order they happen. [Processing] marks
    each entry into [process]. A capacity or an index that is not a number
    is [None]. *)
Inductive event : Type :=
| BeforeRender
| AfterRender
| Resize
| Kill
| Processing (keepArrays : bool)
| RequestFrame (handle : positive)
| CancelFrame (handle : positive)
| Allocate (type : string) (capacity : option nat)
| ProgramProcess (type : string) (key : string) (index : option nat)
| ProgramRender (type : string).

(** What a listener of one of the renderer's events does when it is
    called. Listeners are code of the page; the ones modelled call the
    renderer back through methods that render nothing themselves. *)
Inductive reaction : Type :=
| react_scheduleRefresh
| react_setCustomBBox (customBBox : option BBox.t)
| react_camera_setState (state : PartialState.t).

Section Renderer.

Context {U : Utils}.

(** [String(v)], as in ["" + v] and in a computed property name. *)
Definition to_string (v : value) : string :=
  match v with
  | VUndefined => "undefined"
  | VNull => "null"
  | VBool b => if b then "true" else "false"
  | VNum n => number_to_string n
  | VStr s => s
  end.

(** [applyNodeDefaults(settings, key, data)] *)
Definition applyNodeDefaults (settings : Settings.t) (key : string) (data : object)
  : error + object :=
  if negb (hasOwnProperty data "x") || negb (hasOwnProperty data "y")
  then inl (NoPosition key)
  else
    let data :=
      if negb (truthy (get data "color"))
      then <["color" := VStr (Settings.defaultNodeColor settings)]> data else data in
    let data :=
      if negb (truthy (get data "label")) && negb (strict_equal (get data "label") (VStr ""))
      then <["label" := VNull]> data else data in
    let data :=
      if negb (strict_equal (get data "label") VUndefined)
         && negb (strict_equal (get data "label") VNull)
      then <["label" := VStr ("" ++ to_string (get data "label"))]> data
      else <["label" := VNull]> data in
    let data :=
      if negb (truthy (get data "size")) then <["size" := VNum 2]> data else data in
    let data :=
      if negb (hasOwnProperty data "hidden") then <["hidden" := VBool false]> data else data in
    let data :=
      if negb (hasOwnProperty data "highlighted")
      then <["highlighted" := VBool false]> data else data in
    let data :=
      if negb (hasOwnProperty data "forceLabel")
      then <["forceLabel" := VBool false]> data else data in
    let data :=
      if negb (truthy (get data "type")) || strict_equal (get data "type") (VStr "")
      then <["type" := VStr (Settings.defaultNodeType settings)]> data else data in
    let data :=
      if negb (truthy (get data "zIndex")) then <["zIndex" := VNum 0]> data else data in
    inr data.

(** [applyEdgeDefaults(settings, key, data)] *)
Definition applyEdgeDefaults (settings : Settings.t) (key : string) (data : object) : object :=
  let data :=
    if negb (truthy (get data "color"))
    then <["color" := VStr (Settings.defaultEdgeColor settings)]> data else data in
  let data :=
    if negb (truthy (get data "label")) then <["label" := VStr ""]> data else data in
  let data :=
    if negb (truthy (get data "size")) then <["size" := VNum 0.5]> data else data in
  let data :=
    if negb (hasOwnProperty data "hidden") then <["hidden" := VBool false]> data else data in
  let data :=
    if negb (hasOwnProperty data "forceLabel")
    then <["forceLabel" := VBool false]> data else data in
  let data :=
    if negb (truthy (get data "type")) || strict_equal (get data "type") (VStr "")
    then <["type" := VStr (Settings.defaultEdgeType settings)]> data else data in
  let data :=
    if negb (truthy (get data "zIndex")) then <["zIndex" := VNum 0]> data else data in
  data.

(** The fields of the class that the modelled methods read or write. The
    draw programs are known by the types they are registered for, in
    registration order, [normalizationFunction] by the bounding box it was
    created from, and [renderFrame] is the handle the frame scheduler
    returned, or [null]. [listeners] are the listeners of the renderer's
    own events, in the order they were added; [cameraBound], [windowBound]
    and [graphBound] say whether the listeners that [bindCameraHandlers],
    [bindEventHandlers] and [bindGraphHandlers] add are still registered
    with the camera, the window and the graph. *)
Record t : Type := mk {
  settings : Settings.t;
  graph : Graph.t;
  nodeDataCache : Dict.t;
  edgeDataCache : Dict.t;
  nodesWithForcedLabels : list string;
  edgesWithForcedLabels : list string;
  nodeExtent : BBox.t;
  matrix : Matrix;
  invMatrix : Matrix;
  correctionRatio : float;
  customBBox : option BBox.t;
  normalizationFunction : BBox.t;
  cameraSizeRatio : float;
  width : float;
  height : float;
  pixelRatio : float;
  highlightedNodes : gset string;
  hoveredNode : option string;
  hoveredEdge : option string;
  renderFrame : option positive;
  needToProcess : bool;
  needToSoftProcess : bool;
  nodePrograms : list string;
  camera : Camera.t;
  listeners : list (Emitted.t * reaction);
  cameraBound : bool;
  windowBound : bool;
  graphBound : bool
}.

Definition set_settings (v : Settings.t) (s : t) : t :=
  mk v (graph s) (nodeDataCache s) (edgeDataCache s) (nodesWithForcedLabels s)
     (edgesWithForcedLabels s) (nodeExtent s) (matrix s) (invMatrix s) (correctionRatio s)
     (customBBox s) (normalizationFunction s) (cameraSizeRatio s) (width s) (height s)
     (pixelRatio s) (highlightedNodes s) (hoveredNode s) (hoveredEdge s) (renderFrame s)
     (needToProcess s) (needToSoftProcess s) (nodePrograms s) (camera s) (listeners s)
     (cameraBound s) (windowBound s) (graphBound s).
Definition set_graph (v : Graph.t) (s : t) : t :=
  mk (settings s) v (nodeDataCache s) (edgeDataCache s) (nodesWithForcedLabels s)
     (edgesWithForcedLabels s) (nodeExtent s) (matrix s) (invMatrix s) (correctionRatio s)
     (customBBox s) (normalizationFunction s) (cameraSizeRatio s) (width s) (height s)
     (pixelRatio s) (highlightedNodes s) (hoveredNode s) (hoveredEdge s) (renderFrame s)
     (needToProcess s) (needToSoftProcess s) (nodePrograms s) (camera s) (listeners s)
     (cameraBound s) (windowBound s) (graphBound s).
Definition set_nodeDataCache (v : Dict.t) (s : t) : t :=
  mk (settings s) (graph s) v (edgeDataCache s) (nodesWithForcedLabels s) (edgesWithForcedLabels
     s) (nodeExtent s) (matrix s) (invMatrix s) (correctionRatio s) (customBBox s)
     (normalizationFunction s) (cameraSizeRatio s) (width s) (height s) (pixelRatio s)
     (highlightedNodes s) (hoveredNode s) (hoveredEdge s) (renderFrame s) (needToProcess s)
     (needToSoftProcess s) (nodePrograms s) (camera s) (listeners s) (cameraBound s)
     (windowBound s) (graphBound s).
Definition set_edgeDataCache (v : Dict.t) (s : t) : t :=
  mk (settings s) (graph s) (nodeDataCache s) v (nodesWithForcedLabels s) (edgesWithForcedLabels
     s) (nodeExtent s) (matrix s) (invMatrix s) (correctionRatio s) (customBBox s)
     (normalizationFunction s) (cameraSizeRatio s) (width s) (height s) (pixelRatio s)
     (highlightedNodes s) (hoveredNode s) (hoveredEdge s) (renderFrame s) (needToProcess s)
     (needToSoftProcess s) (nodePrograms s) (camera s) (listeners s) (cameraBound s)
     (windowBound s) (graphBound s).
Definition set_nodesWithForcedLabels (v : list string) (s : t) : t :=
  mk (settings s) (graph s) (nodeDataCache s) (edgeDataCache s) v (edgesWithForcedLabels s)
     (nodeExtent s) (matrix s) (invMatrix s) (correctionRatio s) (customBBox s)
     (normalizationFunction s) (cameraSizeRatio s) (width s) (height s) (pixelRatio s)
     (highlightedNodes s) (hoveredNode s) (hoveredEdge s) (renderFrame s) (needToProcess s)
     (needToSoftProcess s) (nodePrograms s) (camera s) (listeners s) (cameraBound s)
     (windowBound s) (graphBound s).
Definition set_edgesWithForcedLabels (v : list string) (s : t) : t :=
  mk (settings s) (graph s) (nodeDataCache s) (edgeDataCache s) (nodesWithForcedLabels s) v
     (nodeExtent s) (matrix s) (invMatrix s) (correctionRatio s) (customBBox s)
     (normalizationFunction s) (cameraSizeRatio s) (width s) (height s) (pixelRatio s)
     (highlightedNodes s) (hoveredNode s) (hoveredEdge s) (renderFrame s) (needToProcess s)
     (needToSoftProcess s) (nodePrograms s) (camera s) (listeners s) (cameraBound s)
     (windowBound s) (graphBound s).
Definition set_nodeExtent (v : BBox.t) (s : t) : t :=
  mk (settings s) (graph s) (nodeDataCache s) (edgeDataCache s) (nodesWithForcedLabels s)
     (edgesWithForcedLabels s) v (matrix s) (invMatrix s) (correctionRatio s) (customBBox s)
     (normalizationFunction s) (cameraSizeRatio s) (width s) (height s) (pixelRatio s)
     (highlightedNodes s) (hoveredNode s) (hoveredEdge s) (renderFrame s) (needToProcess s)
     (needToSoftProcess s) (nodePrograms s) (camera s) (listeners s) (cameraBound s)
     (windowBound s) (graphBound s).
Definition set_matrix (v : Matrix) (s : t) : t :=
  mk (settings s) (graph s) (nodeDataCache s) (edgeDataCache s) (nodesWithForcedLabels s)
     (edgesWithForcedLabels s) (nodeExtent s) v (invMatrix s) (correctionRatio s) (customBBox s)
     (normalizationFunction s) (cameraSizeRatio s) (width s) (height s) (pixelRatio s)
     (highlightedNodes s) (hoveredNode s) (hoveredEdge s) (renderFrame s) (needToProcess s)
     (needToSoftProcess s) (nodePrograms s) (camera s) (listeners s) (cameraBound s)
     (windowBound s) (graphBound s).
Definition set_invMatrix (v : Matrix) (s : t) : t :=
  mk (settings s) (graph s) (nodeDataCache s) (edgeDataCache s) (nodesWithForcedLabels s)
     (edgesWithForcedLabels s) (nodeExtent s) (matrix s) v (correctionRatio s) (customBBox s)
     (normalizationFunction s) (cameraSizeRatio s) (width s) (height s) (pixelRatio s)
     (highlightedNodes s) (hoveredNode s) (hoveredEdge s) (renderFrame s) (needToProcess s)
     (needToSoftProcess s) (nodePrograms s) (camera s) (listeners s) (cameraBound s)
     (windowBound s) (graphBound s).
Definition set_correctionRatio (v : float) (s : t) : t :=
  mk (settings s) (graph s) (nodeDataCache s) (edgeDataCache s) (nodesWithForcedLabels s)
     (edgesWithForcedLabels s) (nodeExtent s) (matrix s) (invMatrix s) v (customBBox s)
     (normalizationFunction s) (cameraSizeRatio s) (width s) (height s) (pixelRatio s)
     (highlightedNodes s) (hoveredNode s) (hoveredEdge s) (renderFrame s) (needToProcess s)
     (needToSoftProcess s) (nodePrograms s) (camera s) (listeners s) (cameraBound s)
     (windowBound s) (graphBound s).
Definition set_customBBox (v : option BBox.t) (s : t) : t :=
  mk (settings s) (graph s) (nodeDataCache s) (edgeDataCache s) (nodesWithForcedLabels s)
     (edgesWithForcedLabels s) (nodeExtent s) (matrix s) (invMatrix s) (correctionRatio s) v
     (normalizationFunction s) (cameraSizeRatio s) (width s) (height s) (pixelRatio s)
     (highlightedNodes s) (hoveredNode s) (hoveredEdge s) (renderFrame s) (needToProcess s)
     (needToSoftProcess s) (nodePrograms s) (camera s) (listeners s) (cameraBound s)
     (windowBound s) (graphBound s).
Definition set_normalizationFunction (v : BBox.t) (s : t) : t :=
  mk (settings s) (graph s) (nodeDataCache s) (edgeDataCache s) (nodesWithForcedLabels s)
     (edgesWithForcedLabels s) (nodeExtent s) (matrix s) (invMatrix s) (correctionRatio s)
     (customBBox s) v (cameraSizeRatio s) (width s) (height s) (pixelRatio s) (highlightedNodes
     s) (hoveredNode s) (hoveredEdge s) (renderFrame s) (needToProcess s) (needToSoftProcess s)
     (nodePrograms s) (camera s) (listeners s) (cameraBound s) (windowBound s) (graphBound s).
Definition set_cameraSizeRatio (v : float) (s : t) : t :=
  mk (settings s) (graph s) (nodeDataCache s) (edgeDataCache s) (nodesWithForcedLabels s)
     (edgesWithForcedLabels s) (nodeExtent s) (matrix s) (invMatrix s) (correctionRatio s)
     (customBBox s) (normalizationFunction s) v (width s) (height s) (pixelRatio s)
     (highlightedNodes s) (hoveredNode s) (hoveredEdge s) (renderFrame s) (needToProcess s)
     (needToSoftProcess s) (nodePrograms s) (camera s) (listeners s) (cameraBound s)
     (windowBound s) (graphBound s).
Definition set_width (v : float) (s : t) : t :=
  mk (settings s) (graph s) (nodeDataCache s) (edgeDataCache s) (nodesWithForcedLabels s)
     (edgesWithForcedLabels s) (nodeExtent s) (matrix s) (invMatrix s) (correctionRatio s)
     (customBBox s) (normalizationFunction s) (cameraSizeRatio s) v (height s) (pixelRatio s)
     (highlightedNodes s) (hoveredNode s) (hoveredEdge s) (renderFrame s) (needToProcess s)
     (needToSoftProcess s) (nodePrograms s) (camera s) (listeners s) (cameraBound s)
     (windowBound s) (graphBound s).
Definition set_height (v : float) (s : t) : t :=
  mk (settings s) (graph s) (nodeDataCache s) (edgeDataCache s) (nodesWithForcedLabels s)
     (edgesWithForcedLabels s) (nodeExtent s) (matrix s) (invMatrix s) (correctionRatio s)
     (customBBox s) (normalizationFunction s) (cameraSizeRatio s) (width s) v (pixelRatio s)
     (highlightedNodes s) (hoveredNode s) (hoveredEdge s) (renderFrame s) (needToProcess s)
     (needToSoftProcess s) (nodePrograms s) (camera s) (listeners s) (cameraBound s)
     (windowBound s) (graphBound s).
Definition set_pixelRatio (v : float) (s : t) : t :=
  mk (settings s) (graph s) (nodeDataCache s) (edgeDataCache s) (nodesWithForcedLabels s)
     (edgesWithForcedLabels s) (nodeExtent s) (matrix s) (invMatrix s) (correctionRatio s)
     (customBBox s) (normalizationFunction s) (cameraSizeRatio s) (width s) (height s) v
     (highlightedNodes s) (hoveredNode s) (hoveredEdge s) (renderFrame s) (needToProcess s)
     (needToSoftProcess s) (nodePrograms s) (camera s) (listeners s) (cameraBound s)
     (windowBound s) (graphBound s).
Definition set_highlightedNodes (v : gset string) (s : t) : t :=
  mk (settings s) (graph s) (nodeDataCache s) (edgeDataCache s) (nodesWithForcedLabels s)
     (edgesWithForcedLabels s) (nodeExtent s) (matrix s) (invMatrix s) (correctionRatio s)
     (customBBox s) (normalizationFunction s) (cameraSizeRatio s) (width s) (height s)
     (pixelRatio s) v (hoveredNode s) (hoveredEdge s) (renderFrame s) (needToProcess s)
     (needToSoftProcess s) (nodePrograms s) (camera s) (listeners s) (cameraBound s)
     (windowBound s) (graphBound s).
Definition set_hoveredNode (v : option string) (s : t) : t :=
  mk (settings s) (graph s) (nodeDataCache s) (edgeDataCache s) (nodesWithForcedLabels s)
     (edgesWithForcedLabels s) (nodeExtent s) (matrix s) (invMatrix s) (correctionRatio s)
     (customBBox s) (normalizationFunction s) (cameraSizeRatio s) (width s) (height s)
     (pixelRatio s) (highlightedNodes s) v (hoveredEdge s) (renderFrame s) (needToProcess s)
     (needToSoftProcess s) (nodePrograms s) (camera s) (listeners s) (cameraBound s)
     (windowBound s) (graphBound s).
Definition set_hoveredEdge (v : option string) (s : t) : t :=
  mk (settings s) (graph s) (nodeDataCache s) (edgeDataCache s) (nodesWithForcedLabels s)
     (edgesWithForcedLabels s) (nodeExtent s) (matrix s) (invMatrix s) (correctionRatio s)
     (customBBox s) (normalizationFunction s) (cameraSizeRatio s) (width s) (height s)
     (pixelRatio s) (highlightedNodes s) (hoveredNode s) v (renderFrame s) (needToProcess s)
     (needToSoftProcess s) (nodePrograms s) (camera s) (listeners s) (cameraBound s)
     (windowBound s) (graphBound s).
Definition set_renderFrame (v : option positive) (s : t) : t :=
  mk (settings s) (graph s) (nodeDataCache s) (edgeDataCache s) (nodesWithForcedLabels s)
     (edgesWithForcedLabels s) (nodeExtent s) (matrix s) (invMatrix s) (correctionRatio s)
     (customBBox s) (normalizationFunction s) (cameraSizeRatio s) (width s) (height s)
     (pixelRatio s) (highlightedNodes s) (hoveredNode s) (hoveredEdge s) v (needToProcess s)
     (needToSoftProcess s) (nodePrograms s) (camera s) (listeners s) (cameraBound s)
     (windowBound s) (graphBound s).
Definition set_needToProcess (v : bool) (s : t) : t :=
  mk (settings s) (graph s) (nodeDataCache s) (edgeDataCache s) (nodesWithForcedLabels s)
     (edgesWithForcedLabels s) (nodeExtent s) (matrix s) (invMatrix s) (correctionRatio s)
     (customBBox s) (normalizationFunction s) (cameraSizeRatio s) (width s) (height s)
     (pixelRatio s) (highlightedNodes s) (hoveredNode s) (hoveredEdge s) (renderFrame s) v
     (needToSoftProcess s) (nodePrograms s) (camera s) (listeners s) (cameraBound s)
     (windowBound s) (graphBound s).
Definition set_needToSoftProcess (v : bool) (s : t) : t :=
  mk (settings s) (graph s) (nodeDataCache s) (edgeDataCache s) (nodesWithForcedLabels s)
     (edgesWithForcedLabels s) (nodeExtent s) (matrix s) (invMatrix s) (correctionRatio s)
     (customBBox s) (normalizationFunction s) (cameraSizeRatio s) (width s) (height s)
     (pixelRatio s) (highlightedNodes s) (hoveredNode s) (hoveredEdge s) (renderFrame s)
     (needToProcess s) v (nodePrograms s) (camera s) (listeners s) (cameraBound s) (windowBound
     s) (graphBound s).
Definition set_camera (v : Camera.t) (s : t) : t :=
  mk (settings s) (graph s) (nodeDataCache s) (edgeDataCache s) (nodesWithForcedLabels s)
     (edgesWithForcedLabels s) (nodeExtent s) (matrix s) (invMatrix s) (correctionRatio s)
     (customBBox s) (normalizationFunction s) (cameraSizeRatio s) (width s) (height s)
     (pixelRatio s) (highlightedNodes s) (hoveredNode s) (hoveredEdge s) (renderFrame s)
     (needToProcess s) (needToSoftProcess s) (nodePrograms s) v (listeners s) (cameraBound s)
     (windowBound s) (graphBound s).
Definition set_listeners (v : list (Emitted.t * reaction)) (s : t) : t :=
  mk (settings s) (graph s) (nodeDataCache s) (edgeDataCache s) (nodesWithForcedLabels s)
     (edgesWithForcedLabels s) (nodeExtent s) (matrix s) (invMatrix s) (correctionRatio s)
     (customBBox s) (normalizationFunction s) (cameraSizeRatio s) (width s) (height s)
     (pixelRatio s) (highlightedNodes s) (hoveredNode s) (hoveredEdge s) (renderFrame s)
     (needToProcess s) (needToSoftProcess s) (nodePrograms s) (camera s) v (cameraBound s)
     (windowBound s) (graphBound s).
Definition set_cameraBound (v : bool) (s : t) : t :=
  mk (settings s) (graph s) (nodeDataCache s) (edgeDataCache s) (nodesWithForcedLabels s)
     (edgesWithForcedLabels s) (nodeExtent s) (matrix s) (invMatrix s) (correctionRatio s)
     (customBBox s) (normalizationFunction s) (cameraSizeRatio s) (width s) (height s)
     (pixelRatio s) (highlightedNodes s) (hoveredNode s) (hoveredEdge s) (renderFrame s)
     (needToProcess s) (needToSoftProcess s) (nodePrograms s) (camera s) (listeners s) v
     (windowBound s) (graphBound s).
Definition set_windowBound (v : bool) (s : t) : t :=
  mk (settings s) (graph s) (nodeDataCache s) (edgeDataCache s) (nodesWithForcedLabels s)
     (edgesWithForcedLabels s) (nodeExtent s) (matrix s) (invMatrix s) (correctionRatio s)
     (customBBox s) (normalizationFunction s) (cameraSizeRatio s) (width s) (height s)
     (pixelRatio s) (highlightedNodes s) (hoveredNode s) (hoveredEdge s) (renderFrame s)
     (needToProcess s) (needToSoftProcess s) (nodePrograms s) (camera s) (listeners s)
     (cameraBound s) v (graphBound s).
Definition set_graphBound (v : bool) (s : t) : t :=
  mk (settings s) (graph s) (nodeDataCache s) (edgeDataCache s) (nodesWithForcedLabels s)
     (edgesWithForcedLabels s) (nodeExtent s) (matrix s) (invMatrix s) (correctionRatio s)
     (customBBox s) (normalizationFunction s) (cameraSizeRatio s) (width s) (height s)
     (pixelRatio s) (highlightedNodes s) (hoveredNode s) (hoveredEdge s) (renderFrame s)
     (needToProcess s) (needToSoftProcess s) (nodePrograms s) (camera s) (listeners s)
     (cameraBound s) (windowBound s) v.

(** The renderer together with what surrounds it: the size of its
    container, the device pixel ratio, the frame scheduler (the handles
    requested and neither fired nor cancelled yet, and the next fresh
    handle) and the trace of events so far. *)
Record world : Type := mkWorld {
  this : t;
  offsetWidth : float;
  offsetHeight : float;
  devicePixelRatio : float;
  frames : list positive;
  nextHandle : positive;
  trace : list event
}.

Definition set_this (v : t) (w : world) : world :=
  mkWorld v (offsetWidth w) (offsetHeight w) (devicePixelRatio w) (frames w) (nextHandle w)
          (trace w).

(** The outcome of a method: it returns, or it throws; either way the
    fields it has written stay written. *)
Inductive result (A : Type) : Type :=
| Ok (a : A) (w : world)
| Throw (e : error) (w : world).

Arguments Ok {A}.
Arguments Throw {A}.

Definition M (A : Type) : Type := world -> result A.

#[export] Instance M_ret : MRet M := fun A a w => Ok a w.

#[export] Instance M_bind : MBind M := fun A B k m w =>
  match m w with
  | Ok a w' => k a w'
  | Throw e w' => Throw e w'
  end.

Definition read {A : Type} (f : t -> A) : M A := fun w => Ok (f (this w)) w.

Definition write (f : t -> t) : M unit := fun w => Ok tt (set_this (f (this w)) w).

Definition throw {A : Type} (e : error) : M A := fun w => Throw e w.

(** An event is added to the trace. *)
Definition traced (ev : event) : M unit := fun w =>
  Ok tt (mkWorld (this w) (offsetWidth w) (offsetHeight w) (devicePixelRatio w) (frames w)
                 (nextHandle w) (trace w ++ [ev])).

Definition when (b : bool) (m : M unit) : M unit := if b then m else mret tt.

(** The world in which a method ends, whether it returned or threw. *)
Definition final {A : Type} (r : result A) : world :=
  match r with Ok _ w => w | Throw _ w => w end.

(** Modelled from the spec: [requestFrame] and [cancelFrame] of [./utils],
    the frame-scheduling capability ([schedule() -> token], [cancel(token)]).
    A request returns a fresh handle, never zero, and queues the callback;
    a cancellation removes it from the queue. *)
Definition requestFrame : M positive := fun w =>
  let h := nextHandle w in
  Ok h (mkWorld (this w) (offsetWidth w) (offsetHeight w) (devicePixelRatio w)
                (frames w ++ [h]) (Pos.succ h) (trace w ++ [RequestFrame h])).

Definition cancelFrame (h : positive) : M unit := fun w =>
  Ok tt (mkWorld (this w) (offsetWidth w) (offsetHeight w) (devicePixelRatio w)
                 (filter (fun h' => h' ≠ h) (frames w)) (nextHandle w)
                 (trace w ++ [CancelFrame h])).

(** [_scheduleRefresh()]: the callback handed to [requestFrame] is
    [frame_callback] below. *)
Definition _scheduleRefresh : M unit :=
  pending ← read renderFrame;
  match pending with
  | None =>
      h ← requestFrame;
      write (set_renderFrame (Some h))
  | Some _ => mret tt
  end.

(** [scheduleRefresh()] *)
Definition scheduleRefresh : M unit :=
  write (set_needToProcess true);;
  _scheduleRefresh.

(** The listener of the camera's [updated] event ([bindCameraHandlers]),
    called once for each event the camera emitted. *)
Fixpoint camera_listener (events : list Camera.event) : M unit :=
  match events with
  | [] => mret tt
  | _ :: rest => _scheduleRefresh;; camera_listener rest
  end.

(** [this.camera.setState(state)]: the camera calls the listener that
    [bindCameraHandlers] added, if it is still registered. *)
Definition camera_setState (state : PartialState.t) : M unit :=
  c ← read camera;
  let '(c, events) := Camera.setState state c in
  write (set_camera c);;
  bound ← read cameraBound;
  when bound (camera_listener events).

(** [setCustomBBox(customBBox)] *)
Definition setCustomBBox (customBBox : option BBox.t) : M unit :=
  write (set_customBBox customBBox);;
  _scheduleRefresh.

(** A listener is called. *)
Definition run_reaction (r : reaction) : M unit :=
  match r with
  | react_scheduleRefresh => scheduleRefresh
  | react_setCustomBBox customBBox => setCustomBBox customBBox
  | react_camera_setState state => camera_setState state
  end.

Fixpoint run_reactions (rs : list reaction) : M unit :=
  match rs with
  | [] => mret tt
  | r :: rest => run_reaction r;; run_reactions rest
  end.

(** The event under which an emission is traced. *)
Definition event_of (e : Emitted.t) : event :=
  match e with
  | Emitted.beforeRender => BeforeRender
  | Emitted.afterRender => AfterRender
  | Emitted.resize => Resize
  | Emitted.kill => Kill
  end.

(** [on] and [emit] of the event emitter that the class extends, which is
    not among the sources: [on] adds a listener, and [emit] calls the
    listeners added for the event, there and then, in the order they were
    added. *)
Definition on (e : Emitted.t) (r : reaction) : M unit :=
  write (fun s => set_listeners (listeners s ++ [(e, r)]) s).

Definition emit (e : Emitted.t) : M unit :=
  traced (event_of e);;
  added ← read listeners;
  run_reactions
    (omap (fun l : Emitted.t * reaction => if Emitted.same (fst l) e then Some (snd l) else None)
          added).

(** [getDimensions()] *)
Definition getDimensions (s : t) : Dimensions.t := Dimensions.mk (width s) (height s).

(** [getGraphDimensions()] *)
Definition getGraphDimensions (s : t) : Dimensions.t :=
  let extent := match customBBox s with Some b => b | None => nodeExtent s end in
  Dimensions.mk
    (or_num (snd (BBox.x extent) - fst (BBox.x extent))%float 1%float)
    (or_num (snd (BBox.y extent) - fst (BBox.y extent))%float 1%float).

(** [this.getSetting("stagePadding") || 0] *)
Definition stagePadding_or_0 (s : t) : float :=
  or_num (Settings.stagePadding (settings s)) 0%float.

(** The counters [nodesPerPrograms] and [edgesPerPrograms] are plain
    objects too; what is stored is a number, or something that is not one
    ([None]). [count] is [counts[type] || 0]: a missing entry reads as
    [undefined], which [|| 0] turns into [0], unless [Object.prototype] has
    a property of that name, which is then what is read. *)
Definition count (counts : gmap string (option nat)) (type : string) : option nat :=
  match counts !! type with
  | Some c => c
  | None => if bool_decide (type ∈ Dict.Object_prototype) then None else Some 0
  end.

(** [counts[type] = v], [v] being a primitive value: under the key
    ["__proto__"] the inherited setter ignores it. *)
Definition store (type : string) (v : option nat) (counts : gmap string (option nat))
  : gmap string (option nat) :=
  if String.eqb type "__proto__" then counts else <[type := v]> counts.

(** [counts[type] = (counts[type] || 0) + 1]; adding one to what is not a
    number gives a string. *)
Definition increment (type : string) (counts : gmap string (option nat))
  : gmap string (option nat) :=
  store type (S <$> count counts type) counts.

(** The number that [counts[type]++] reads: [NaN] ([None]) when the entry
    is missing or is not a number. *)
Definition index_of (counts : gmap string (option nat)) (type : string) : option nat :=
  match counts !! type with
  | Some c => c
  | None => None
  end.

(** The first loop of [process] over the nodes, from the node at hand on.
    [nodesPerPrograms] and [nodeZExtent] are the locals it updates. The
    normalization rewrites [data] in place after it was stored, so the
    cache holds the normalized record. *)
Fixpoint process_nodes (nodes : list (string * object))
    (nodesPerPrograms : gmap string (option nat)) (nodeZExtent : value * value)
  : M (gmap string (option nat) * (value * value)) :=
  match nodes with
  | [] => mret (nodesPerPrograms, nodeZExtent)
  | (node, attributes) :: rest =>
      settings ← read settings;
      let attr := attributes in
      let attr :=
        match Settings.nodeReducer settings with
        | Some nodeReducer => nodeReducer node attr
        | None => attr
        end in
      match applyNodeDefaults settings node attr with
      | inl e => throw e
      | inr data =>
          let type := to_string (get data "type") in
          let nodesPerPrograms := increment type nodesPerPrograms in
          extent ← read normalizationFunction;
          let data := normalization_applyTo extent data in
          write (fun s => set_nodeDataCache (Dict.set node data (nodeDataCache s)) s);;
          when (truthy (get data "forceLabel"))
            (write (fun s => set_nodesWithForcedLabels (nodesWithForcedLabels s ++ [node]) s));;
          let nodeZExtent :=
            if Settings.zIndex settings then
              let lo :=
                if less_than (get data "zIndex") (fst nodeZExtent)
                then get data "zIndex" else fst nodeZExtent in
              let hi :=
                if less_than (snd nodeZExtent) (get data "zIndex")
                then get data "zIndex" else snd nodeZExtent in
              (lo, hi)
            else nodeZExtent in
          process_nodes rest nodesPerPrograms nodeZExtent
      end
  end.

(** The loop of [process] over the registered programs, [programs] being
    all of them and [types] those still to come: the check that the type
    is an own property, which calls what [this.nodePrograms.hasOwnProperty]
    is, a program if one is registered under that name; the allocation,
    unless the arrays are kept; and the counter reset. *)
Fixpoint allocate_programs (programs types : list string) (keepArrays : bool)
    (nodesPerPrograms : gmap string (option nat)) : M (gmap string (option nat)) :=
  match types with
  | [] => mret nodesPerPrograms
  | type :: rest =>
      when (bool_decide ("hasOwnProperty" ∈ programs)) (throw TypeError);;
      when (negb keepArrays) (traced (Allocate type (count nodesPerPrograms type)));;
      allocate_programs programs rest keepArrays (store type (Some 0) nodesPerPrograms)
  end.

(** [this.nodePrograms[type]]: a program registered under that type,
    something else that is truthy, which is what [Object.prototype] has
    under that name, or [undefined]. *)
Inductive program_found : Type :=
| Program
| NotAProgram
| NoSuchProgram.

Definition lookup_program (type : string) (programs : list string) : program_found :=
  if bool_decide (type ∈ programs) then Program
  else if bool_decide (type ∈ Dict.Object_prototype) then NotAProgram
  else NoSuchProgram.

(** The second loop of [process] over the nodes, in drawing order. Calling
    [process] on what is not a program is a [TypeError]. *)
Fixpoint process_programs (nodes : list string) (nodesPerPrograms : gmap string (option nat))
  : M unit :=
  match nodes with
  | [] => mret tt
  | node :: rest =>
      cache ← read nodeDataCache;
      match Dict.properties (Dict.get node cache) with
      | None => throw TypeError
      | Some data =>
          let type := to_string (get data "type") in
          programs ← read nodePrograms;
          match lookup_program type programs with
          | NoSuchProgram => throw (NoProgram type)
          | NotAProgram => throw TypeError
          | Program =>
              traced (ProgramProcess type node (index_of nodesPerPrograms type));;
              let nodesPerPrograms :=
                store type (S <$> index_of nodesPerPrograms type) nodesPerPrograms in
              when (truthy (get data "highlighted") && negb (truthy (get data "hidden")))
                (write (fun s => set_highlightedNodes ({[node]} ∪ highlightedNodes s) s));;
              process_programs rest nodesPerPrograms
          end
      end
  end.

(** The loop of [process] over the edges. *)
Fixpoint process_edges (edges : list (string * object))
    (edgesPerPrograms : gmap string (option nat)) (edgeZExtent : value * value) : M unit :=
  match edges with
  | [] => mret tt
  | (edge, attributes) :: rest =>
      settings ← read settings;
      let attr := attributes in
      let attr :=
        match Settings.edgeReducer settings with
        | Some edgeReducer => edgeReducer edge attr
        | None => attr
        end in
      let data := applyEdgeDefaults settings edge attr in
      let type := to_string (get data "type") in
      let edgesPerPrograms := increment type edgesPerPrograms in
      write (fun s => set_edgeDataCache (Dict.set edge data (edgeDataCache s)) s);;
      when (truthy (get data "forceLabel") && negb (truthy (get data "hidden")))
        (write (fun s => set_edgesWithForcedLabels (edgesWithForcedLabels s ++ [edge]) s));;
      let edgeZExtent :=
        if Settings.zIndex settings then
          let lo :=
            if less_than (get data "zIndex") (fst edgeZExtent)
            then get data "zIndex" else fst edgeZExtent in
          let hi :=
            if less_than (snd edgeZExtent) (get data "zIndex")
            then get data "zIndex" else snd edgeZExtent in
          (lo, hi)
        else edgeZExtent in
      process_edges rest edgesPerPrograms edgeZExtent
  end.

(** [process(keepArrays)]. The matrix of the null camera is computed and
    never used; it is left out. *)
Definition process (keepArrays : bool) : M unit :=
  traced (Processing keepArrays);;
  graph ← read graph;
  settings ← read settings;
  let nodeZExtent := (VNum infinity, VNum neg_infinity) in
  let edgeZExtent := (VNum infinity, VNum neg_infinity) in
  write (set_highlightedNodes ∅);;
  write (set_nodeExtent (graphExtent graph));;
  write (set_nodesWithForcedLabels []);;
  write (set_edgesWithForcedLabels []);;
  write (fun s =>
    set_normalizationFunction
      (match customBBox s with Some b => b | None => nodeExtent s end) s);;
  '(nodesPerPrograms, nodeZExtent) ← process_nodes (Graph.nodes graph) ∅ nodeZExtent;
  programs ← read nodePrograms;
  nodesPerPrograms ← allocate_programs programs programs keepArrays nodesPerPrograms;
  cache ← read nodeDataCache;
  let nodes := (Graph.nodes graph).*1 in
  let nodes :=
    if Settings.zIndex settings
       && negb (strict_equal (fst nodeZExtent) (snd nodeZExtent))
    then zIndexOrdering nodeZExtent
           (fun node => get (default ∅ (Dict.properties (Dict.get node cache))) "zIndex") nodes
    else nodes in
  process_programs nodes nodesPerPrograms;;
  process_edges (Graph.edges graph) ∅ edgeZExtent.

(** The first assignments of [resize()]: [this.width] and [this.height]
    from the container, [this.pixelRatio] from [getPixelRatio()]. *)
Definition measure_container : M unit := fun w =>
  Ok tt (set_this (set_pixelRatio (devicePixelRatio w)
                     (set_height (offsetHeight w) (set_width (offsetWidth w) (this w)))) w).

(** [resize()]; the sizing of the DOM elements and of the contexts is
    outside the model. *)
Definition resize : M unit :=
  previousWidth ← read width;
  previousHeight ← read height;
  measure_container;;
  settings ← read settings;
  measured ← read width;
  (if strict_eq measured 0%float then
     if Settings.allowInvalidContainer settings then write (set_width 1%float)
     else throw NoWidth
   else mret tt);;
  measured ← read height;
  (if strict_eq measured 0%float then
     if Settings.allowInvalidContainer settings then write (set_height 1%float)
     else throw NoHeight
   else mret tt);;
  s ← read id;
  if strict_eq previousWidth (width s) && strict_eq previousHeight (height s) then mret tt
  else emit Emitted.resize.

(** [updateCachedValues()] *)
Definition updateCachedValues : M unit :=
  write (fun s => set_cameraSizeRatio (sqrt (CameraState.ratio (Camera.getState (camera s)))) s).

(** The loop of [render] over the registered programs. *)
Fixpoint render_programs (types : list string) : M unit :=
  match types with
  | [] => mret tt
  | type :: rest => traced (ProgramRender type);; render_programs rest
  end.

(** [render()]; clearing the canvases is outside the model. *)
Definition render : M unit :=
  emit Emitted.beforeRender;;
  pending ← read renderFrame;
  match pending with
  | Some h =>
      cancelFrame h;;
      write (set_renderFrame None);;
      write (set_needToProcess false);;
      write (set_needToSoftProcess false)
  | None => mret tt
  end;;
  resize;;
  updateCachedValues;;
  s ← read id;
  if Nat.eqb (Graph.order (graph s)) 0 then emit Emitted.afterRender
  else
    s ← read id;
    let cameraState := Camera.getState (camera s) in
    let viewportDimensions := getDimensions s in
    let graphDimensions := getGraphDimensions s in
    let padding := stagePadding_or_0 s in
    write (set_matrix
             (matrixFromCamera cameraState viewportDimensions graphDimensions padding false));;
    write (set_invMatrix
             (matrixFromCamera cameraState viewportDimensions graphDimensions padding true));;
    write (fun s =>
             set_correctionRatio (getMatrixImpact (matrix s) cameraState viewportDimensions) s);;
    programs ← read nodePrograms;
    render_programs programs;;
    emit Emitted.afterRender.

(** [_refresh()] *)
Definition _refresh : M unit :=
  s ← read id;
  (if needToProcess s then process false
   else if needToSoftProcess s then process true
   else mret tt);;
  write (set_needToProcess false);;
  write (set_needToSoftProcess false);;
  render.

(** The callback of [_scheduleRefresh]. *)
Definition frame_callback : M unit :=
  _refresh;;
  write (set_renderFrame None).

(** The frame scheduler runs the oldest queued callback, if there is one. *)
Definition fire : M unit := fun w =>
  match frames w with
  | [] => Ok tt w
  | h :: rest =>
      frame_callback
        (mkWorld (this w) (offsetWidth w) (offsetHeight w) (devicePixelRatio w) rest
                 (nextHandle w) (trace w))
  end.

(** [refresh()] *)
Definition refresh : M unit :=
  write (set_needToProcess true);;
  _refresh.

(** [handleSettingsUpdate()] *)
Definition handleSettingsUpdate : M unit :=
  write (fun s =>
    set_camera (Camera.set_minRatio (Settings.minCameraRatio (settings s)) (camera s)) s);;
  write (fun s =>
    set_camera (Camera.set_maxRatio (Settings.maxCameraRatio (settings s)) (camera s)) s);;
  c ← read camera;
  camera_setState (Camera.validateState c (PartialState.of_state (Camera.getState c))).

(** [setSetting(key, value)] and [updateSetting(key, updater)], the
    assignment to [this.settings[key]] being given as a function. *)
Definition setSetting (assign : Settings.t -> Settings.t) : M unit :=
  write (fun s => set_settings (assign (settings s)) s);;
  s ← read id;
  match Settings.validateSettings (settings s) with
  | Some why => throw (InvalidSettings why)
  | None => mret tt
  end;;
  handleSettingsUpdate;;
  write (set_needToProcess true);;
  _scheduleRefresh.

(** The listener of the window's [resize] event ([bindEventHandlers]), and
    the window emitting that event: the listener runs if it is still
    registered. *)
Definition handleResize : M unit :=
  write (set_needToSoftProcess true);;
  _scheduleRefresh.

Definition window_resize : M unit :=
  bound ← read windowBound;
  when bound handleResize.

(** The listeners of [bindGraphHandlers]. *)
Definition graphUpdate : M unit :=
  write (set_needToProcess true);;
  _scheduleRefresh.

Definition softGraphUpdate : M unit :=
  write (set_needToSoftProcess true);;
  _scheduleRefresh.

Definition dropNodeGraphUpdate (key : string) : M unit :=
  write (fun s => set_nodeDataCache (Dict.remove key (nodeDataCache s)) s);;
  hovered ← read hoveredNode;
  when (bool_decide (hovered = Some key)) (write (set_hoveredNode None));;
  graphUpdate.

Definition dropEdgeGraphUpdate (key : string) : M unit :=
  write (fun s => set_edgeDataCache (Dict.remove key (edgeDataCache s)) s);;
  hovered ← read hoveredEdge;
  when (bool_decide (hovered = Some key)) (write (set_hoveredEdge None));;
  graphUpdate.

Definition clearEdgesGraphUpdate : M unit :=
  write (set_edgeDataCache Dict.empty);;
  write (set_hoveredEdge None);;
  graphUpdate.

Definition clearGraphUpdate : M unit :=
  write (set_nodeDataCache Dict.empty);;
  write (set_hoveredNode None);;
  clearEdgesGraphUpdate.

(** The events of the graph the renderer listens to. *)
Inductive graph_event : Type :=
| nodeAdded
| nodeDropped (key : string)
| nodeAttributesUpdated
| eachNodeAttributesUpdated
| edgeAdded
| edgeDropped (key : string)
| edgeAttributesUpdated
| eachEdgeAttributesUpdated
| edgesCleared
| cleared.

(** The listener that [bindGraphHandlers] registers for each event. *)
Definition graph_listener (e : graph_event) : M unit :=
  match e with
  | nodeAdded => graphUpdate
  | nodeDropped key => dropNodeGraphUpdate key
  | nodeAttributesUpdated => softGraphUpdate
  | eachNodeAttributesUpdated => graphUpdate
  | edgeAdded => graphUpdate
  | edgeDropped key => dropEdgeGraphUpdate key
  | edgeAttributesUpdated => softGraphUpdate
  | eachEdgeAttributesUpdated => graphUpdate
  | edgesCleared => clearEdgesGraphUpdate
  | cleared => clearGraphUpdate
  end.

(** The graph, changed to [graph'], emits [e]: the listener registered for
    it runs, if it is still registered. *)
Definition on_graph_event (graph' : Graph.t) (e : graph_event) : M unit :=
  write (set_graph graph');;
  bound ← read graphBound;
  when bound (graph_listener e).

(** [kill()], as far as the modelled fields go: the frame of the
    highlighted nodes is never requested, and the canvases are outside the
    model. *)
Definition kill : M unit :=
  emit Emitted.kill;;
  write (set_listeners []);;
  write (set_cameraBound false);;
  write (set_windowBound false);;
  write (set_graphBound false);;
  write (set_nodeDataCache Dict.empty);;
  write (set_edgeDataCache Dict.empty);;
  write (set_nodesWithForcedLabels []);;
  write (set_edgesWithForcedLabels []);;
  write (set_highlightedNodes ∅);;
  pending ← read renderFrame;
  match pending with
  | Some h => cancelFrame h;; write (set_renderFrame None)
  | None => mret tt
  end.

(** [getNodeDisplayData(key)]: [undefined] ([None]) when what the cache
    gives for the key is not truthy, and otherwise a copy of what it gives,
    by [Object.assign({}, _)], for which [Some] stands: the copy of a
    record has the properties of the record. *)
Definition getNodeDisplayData (key : string) (s : t) : option Dict.found :=
  let node := Dict.get key (nodeDataCache s) in
  if Dict.truthy node then Some node else None.

(** [override.padding || this.getSetting("stagePadding") || 0] *)
Definition padding_of (override : Override.t Matrix) (s : t) : float :=
  match Override.padding override with
  | Some p => or_num (or_num p (Settings.stagePadding (settings s))) 0%float
  | None => stagePadding_or_0 s
  end.

(** The matrix that the two conversions compute when they do not take the
    cached one: every argument from the override if it is there, from the
    renderer otherwise. *)
Definition recomputed_matrix (override : Override.t Matrix) (s : t) (inverse : bool) : Matrix :=
  matrixFromCamera
    (default (Camera.getState (camera s)) (Override.cameraState override))
    (default (getDimensions s) (Override.viewportDimensions override))
    (default (getGraphDimensions s) (Override.graphDimensions override))
    (padding_of override s)
    inverse.

(** [framedGraphToViewport(coordinates, override)] *)
Definition framedGraphToViewport (coordinates : Coordinates.t) (override : Override.t Matrix)
    (s : t) : Coordinates.t :=
  let recomputeMatrix :=
    bool_decide (is_Some (Override.cameraState override))
    || bool_decide (is_Some (Override.viewportDimensions override))
    || bool_decide (is_Some (Override.graphDimensions override)) in
  let matrix :=
    match Override.matrix override with
    | Some m => m
    | None => if recomputeMatrix then recomputed_matrix override s false else matrix s
    end in
  let viewportPos := multiplyVec2 matrix coordinates in
  Coordinates.mk
    (((1 + Coordinates.x viewportPos) * width s) / 2)%float
    (((1 - Coordinates.y viewportPos) * height s) / 2)%float.

(** [viewportToFramedGraph(coordinates, override)] *)
Definition viewportToFramedGraph (coordinates : Coordinates.t) (override : Override.t Matrix)
    (s : t) : Coordinates.t :=
  let recomputeMatrix :=
    bool_decide (is_Some (Override.cameraState override))
    || bool_decide (is_Some (Override.viewportDimensions override))
    || negb (bool_decide (is_Some (Override.graphDimensions override))) in
  let invMatrix :=
    match Override.matrix override with
    | Some m => m
    | None => if recomputeMatrix then recomputed_matrix override s true else invMatrix s
    end in
  let res :=
    multiplyVec2 invMatrix
      (Coordinates.mk
         ((Coordinates.x coordinates / width s) * 2 - 1)%float
         (1 - (Coordinates.y coordinates / height s) * 2)%float) in
  let res := if is_nan (Coordinates.x res) then Coordinates.mk 0%float (Coordinates.y res) else res in
  let res := if is_nan (Coordinates.y res) then Coordinates.mk (Coordinates.x res) 0%float else res in
  res.

(** [viewportToGraph(viewportPoint, override)] *)
Definition viewportToGraph (viewportPoint : Coordinates.t) (override : Override.t Matrix)
    (s : t) : Coordinates.t :=
  normalization_inverse (normalizationFunction s) (viewportToFramedGraph viewportPoint override s).

(** [graphToViewport(graphPoint, override)] *)
Definition graphToViewport (graphPoint : Coordinates.t) (override : Override.t Matrix)
    (s : t) : Coordinates.t :=
  framedGraphToViewport (normalization (normalizationFunction s) graphPoint) override s.

(** The calls from outside that the examples below are made of: methods
    of the renderer, events of what it listens to, and the frame scheduler
    running a callback. *)
Inductive call : Type :=
| call_on (e : Emitted.t) (r : reaction)
| call_scheduleRefresh
| call_refresh
| call_setCustomBBox (customBBox : option BBox.t)
| call_setSetting (assign : Settings.t -> Settings.t)
| call_camera_setState (state : PartialState.t)
| call_graph_event (graph' : Graph.t) (e : graph_event)
| call_window_resize
| call_kill
| call_fire.

Definition run_call (c : call) : M unit :=
  match c with
  | call_on e r => on e r
  | call_scheduleRefresh => scheduleRefresh
  | call_refresh => refresh
  | call_setCustomBBox b => setCustomBBox b
  | call_setSetting assign => setSetting assign
  | call_camera_setState state => camera_setState state
  | call_graph_event graph' e => on_graph_event graph' e
  | call_window_resize => window_resize
  | call_kill => kill
  | call_fire => fire
  end.

(** A sequence of calls, each made whether or not the one before threw:
    an exception ends the call that raised it, not the page. *)
Definition run_calls (calls : list call) (w : world) : world :=
  fold_left (fun w c => final (run_call c w)) calls w.

(** The two ways of asking for a refresh at the next frame. *)
Inductive schedule_call : Type :=
| public_scheduleRefresh
| internal_scheduleRefresh.

Definition run_schedule (c : schedule_call) : M unit :=
  match c with
  | public_scheduleRefresh => scheduleRefresh
  | internal_scheduleRefresh => _scheduleRefresh
  end.

Definition run_schedules (calls : list schedule_call) (w : world) : world :=
  fold_left (fun w c => final (run_schedule c w)) calls w.

(** How many times an event occurs in a trace. *)
Definition is_RequestFrame (ev : event) : bool :=
  match ev with RequestFrame _ => true | _ => false end.
Definition is_Processing (ev : event) : bool :=
  match ev with Processing _ => true | _ => false end.
Definition is_BeforeRender (ev : event) : bool :=
  match ev with BeforeRender => true | _ => false end.
Definition is_AfterRender (ev : event) : bool :=
  match ev with AfterRender => true | _ => false end.

Definition occurrences (p : event -> bool) (evs : list event) : nat :=
  length (List.filter p evs).

End Renderer.

Arguments Ok {U A}.
Arguments Throw {U A}.

End Sigma.

(* ===================================================================== *)
(** * A stand-in for the utilities, and sample renderers *)
(* ===================================================================== *)

(** The examples further down need the renderer to run, and so need some
    implementation of [Utils]. This one is as simple as the examples
    allow. Nothing but the examples depends on it. *)
Module Sample.

Import JS Obj.

(** A [Float32Array] of nine numbers, column by column. *)
Definition matrix_of (a d tx ty : float) : list float :=
  [a; 0; 0; 0; d; 0; tx; ty; 1]%float.

Definition entry (m : list float) (i : nat) : float := nth i m nan.

(** The correction for the mismatch of aspect ratio between the viewport
    and the bounding box of the graph: it depends on the dimensions of the
    graph through their ratio only. *)
Definition sample_correction (viewport graph : Dimensions.t) : float :=
  let viewportRatio := (Dimensions.height viewport / Dimensions.width viewport)%float in
  let graphRatio := (Dimensions.height graph / Dimensions.width graph)%float in
  if ((viewportRatio <? 1) && (1 <? graphRatio) || (1 <? viewportRatio) && (graphRatio <? 1))%float
  then 1%float
  else Math_min (Math_max graphRatio (1 / graphRatio))
                (Math_max (1 / viewportRatio) viewportRatio).

(** Every entry that a rotation touches, for an angle that is not zero:
    the stand-in knows no trigonometry. *)
Definition turned : list float := [nan; nan; 0; nan; nan; 0; nan; nan; 1]%float.

(** Modelled from the spec: [matrixFromCamera] of [./utils], for a camera
    that is not turned: a translation by [-x] and [-y], a scale by
    [1 / ratio], and the scale that fits the graph in the viewport less
    the padding on every side, keeping its aspect ratio; and the inverse
    of that matrix. *)
Definition sample_matrixFromCamera (state : CameraState.t) (viewport graph : Dimensions.t)
    (padding : float) (inverse : bool) : list float :=
  let width := Dimensions.width viewport in
  let height := Dimensions.height viewport in
  let smallestDimension := (Math_min width height - 2 * padding)%float in
  let correction := sample_correction viewport graph in
  let ratio := CameraState.ratio state in
  if negb (strict_eq (CameraState.angle state) 0) then turned
  else if inverse
  then matrix_of (ratio * (width / smallestDimension / 2 / correction))
                 (ratio * (height / smallestDimension / 2 / correction))
                 (CameraState.x state) (CameraState.y state)
  else
    let sx := (2 * (smallestDimension / width) * correction * (1 / ratio))%float in
    let sy := (2 * (smallestDimension / height) * correction * (1 / ratio))%float in
    matrix_of sx sy (sx * - CameraState.x state) (sy * - CameraState.y state).

Definition sample_multiplyVec2 (m : list float) (p : Coordinates.t) : Coordinates.t :=
  Coordinates.mk
    (entry m 0 * Coordinates.x p + entry m 3 * Coordinates.y p + entry m 6)%float
    (entry m 1 * Coordinates.x p + entry m 4 * Coordinates.y p + entry m 7)%float.

(** How much the matrix scales a unit length, for a camera that is not
    turned. *)
Definition sample_getMatrixImpact (m : list float) (state : CameraState.t)
    (viewport : Dimensions.t) : float :=
  if negb (strict_eq (CameraState.angle state) 0) then nan
  else (1 / sqrt (entry m 0 * entry m 0 + entry m 1 * entry m 1) / Dimensions.width viewport)%float.

Definition number_of (v : value) : float :=
  match v with VNum n => n | _ => nan end.

Definition sample_graphExtent (g : Graph.t) : BBox.t :=
  fold_left
    (fun b node =>
       let x := number_of (get (snd node) "x") in
       let y := number_of (get (snd node) "y") in
       BBox.mk (Math_min x (fst (BBox.x b)), Math_max x (snd (BBox.x b)))
               (Math_min y (fst (BBox.y b)), Math_max y (snd (BBox.y b))))
    (Graph.nodes g)
    (BBox.mk (infinity, neg_infinity) (infinity, neg_infinity)).

Definition sample_ratio (b : BBox.t) : float :=
  or_num (Math_max (snd (BBox.x b) - fst (BBox.x b)) (snd (BBox.y b) - fst (BBox.y b)))
         1%float.

Definition sample_normalization (b : BBox.t) (p : Coordinates.t) : Coordinates.t :=
  Coordinates.mk
    (0.5 + (Coordinates.x p - (snd (BBox.x b) + fst (BBox.x b)) / 2) / sample_ratio b)%float
    (0.5 + (Coordinates.y p - (snd (BBox.y b) + fst (BBox.y b)) / 2) / sample_ratio b)%float.

Definition sample_inverse (b : BBox.t) (p : Coordinates.t) : Coordinates.t :=
  Coordinates.mk
    ((snd (BBox.x b) + fst (BBox.x b)) / 2 + sample_ratio b * (Coordinates.x p - 0.5))%float
    ((snd (BBox.y b) + fst (BBox.y b)) / 2 + sample_ratio b * (Coordinates.y p - 0.5))%float.

Definition sample_applyTo (b : BBox.t) (data : object) : object :=
  let p :=
    sample_normalization b
      (Coordinates.mk (number_of (get data "x")) (number_of (get data "y"))) in
  <["y" := VNum (Coordinates.y p)]> (<["x" := VNum (Coordinates.x p)]> data).

Definition sample_less_than (a b : value) : bool :=
  match a, b with VNum m, VNum n => (m <? n)%float | _, _ => false end.

#[export] Instance utils : Utils := {|
  Matrix := list float;
  identity := matrix_of 1 1 0 0;
  matrixFromCamera := sample_matrixFromCamera;
  multiplyVec2 := sample_multiplyVec2;
  getMatrixImpact := sample_getMatrixImpact;
  graphExtent := sample_graphExtent;
  normalization := sample_normalization;
  normalization_applyTo := sample_applyTo;
  normalization_inverse := sample_inverse;
  zIndexOrdering := fun _ _ nodes => nodes;
  number_to_string := fun _ => "0";
  less_than := sample_less_than
|}.

(** The renderer as its field initialisers leave it, over the graph [g],
    with the default settings and a camera of its own; its handlers are
    bound, and nothing listens to its events. *)
Definition renderer (g : Graph.t) : Sigma.t :=
  Sigma.mk Settings.DEFAULT_SETTINGS g Dict.empty Dict.empty [] []
    (BBox.mk (0, 1)%float (0, 1)%float) identity identity 1%float None
    (BBox.mk (0, 1)%float (0, 1)%float) 1%float 0%float 0%float 1%float
    ∅ None None None false false ["circle"] Camera.new [] true true true.

(** That renderer in a container of 800 by 600, nothing queued, nothing
    traced. *)
Definition world_of (g : Graph.t) : Sigma.world :=
  Sigma.mkWorld (renderer g) 800%float 600%float 1%float [] 1%positive [].

(** The graph of the specification's example: [A] at [(0, 0)], [B] at
    [(10, 0)]. *)
Definition two_nodes : Graph.t :=
  Graph.mk
    [("A", {["x" := VNum 0%float; "y" := VNum 0%float]});
     ("B", {["x" := VNum 10%float; "y" := VNum 0%float]})]
    [].

(** The same graph, [B] having lost its [y]. *)
Definition no_position : Graph.t :=
  Graph.mk
    [("A", {["x" := VNum 0%float; "y" := VNum 0%float]});
     ("B", {["x" := VNum 10%float]})]
    [].

(** The same graph, the [x] of [B] being the string ["10"]. *)
Definition string_position : Graph.t :=
  Graph.mk
    [("A", {["x" := VNum 0%float; "y" := VNum 0%float]});
     ("B", {["x" := VStr "10"; "y" := VNum 0%float]})]
    [].

(** The same graph again, the key of [A] being ["__proto__"]. *)
Definition proto_node : Graph.t :=
  Graph.mk
    [("__proto__", {["x" := VNum 0%float; "y" := VNum 0%float]});
     ("B", {["x" := VNum 10%float; "y" := VNum 0%float]})]
    [].

(** Those graphs once their first node has been dropped. *)
Definition only_B : Graph.t :=
  Graph.mk [("B", {["x" := VNum 10%float; "y" := VNum 0%float]})] [].

(** The graph of [proto_node] once [B] has been dropped. *)
Definition only_proto : Graph.t :=
  Graph.mk [("__proto__", {["x" := VNum 0%float; "y" := VNum 0%float]})] [].

(** The sample renderer over the two-node graph after a first [refresh()]:
    both nodes are cached and the matrices are those of a graph ten wide
    and one high. *)
Definition ready : Sigma.world := Sigma.final (Sigma.refresh (world_of two_nodes)).

(** The same over the graph whose first node is ["__proto__"]. *)
Definition ready_proto : Sigma.world := Sigma.final (Sigma.refresh (world_of proto_node)).

(** A listener of [afterRender] that asks for a refresh was added to the
    sample renderer, a refresh was scheduled, and its frame has fired. *)
Definition looping : Sigma.world :=
  Sigma.run_calls
    [Sigma.call_on Emitted.afterRender Sigma.react_scheduleRefresh;
     Sigma.call_scheduleRefresh;
     Sigma.call_fire]
    (world_of two_nodes).

(** A refresh was scheduled on the renderer of the graph in which [B] has
    no [y], and its frame has fired. *)
Definition failed : Sigma.world :=
  Sigma.run_calls [Sigma.call_scheduleRefresh; Sigma.call_fire] (world_of no_position).

(** The pointer is over the node [key]. *)
Definition hovering (key : string) (w : Sigma.world) : Sigma.world :=
  Sigma.set_this (Sigma.set_hoveredNode (Some key) (Sigma.this w)) w.

(** A renderer whose custom bounding box is [b]. *)
Definition boxed (b : BBox.t) : Sigma.t :=
  Sigma.set_customBBox (Some b) (renderer two_nodes).

End Sample.

(* ===================================================================== *)
(** * The notions the properties are stated with *)
(* ===================================================================== *)

(** ** For the camera *)

Module CameraSpec.

Import JS Camera.

(** The value a field has after [setState]: the validated one if the call
    supplied a number, the one it had otherwise. *)
Definition applied_field (current : float) (v : value) : float :=
  match v with VNum n => n | _ => current end.

(** The camera [setState(state)] leaves behind when it is enabled. *)
Definition applied (state : PartialState.t) (c : t) : t :=
  let validState := validateState c state in
  mk (applied_field (x c) (PartialState.x validState))
     (applied_field (y c) (PartialState.y validState))
     (applied_field (angle c) (PartialState.angle validState))
     (applied_field (ratio c) (PartialState.ratio validState))
     (minRatio c) (maxRatio c) (nextFrame c) (Some (getState c)) (enabled c).

(** Two states differ when some field of the one is not [===] to the same
    field of the other. *)
Definition differs (a b : CameraState.t) : Prop :=
  strict_eq (CameraState.x a) (CameraState.x b) = false
  \/ strict_eq (CameraState.y a) (CameraState.y b) = false
  \/ strict_eq (CameraState.angle a) (CameraState.angle b) = false
  \/ strict_eq (CameraState.ratio a) (CameraState.ratio b) = false.

(** A validated field restates the current value: it is missing, or [===]
    to it. *)
Definition restates_field (v : value) (current : float) : Prop :=
  match v with VNum n => strict_eq n current = true | _ => True end.

(** Every validated field of [state] restates the camera's current value. *)
Definition restates (c : t) (state : PartialState.t) : Prop :=
  let validState := validateState c state in
  restates_field (PartialState.x validState) (x c)
  /\ restates_field (PartialState.y validState) (y c)
  /\ restates_field (PartialState.angle validState) (angle c)
  /\ restates_field (PartialState.ratio validState) (ratio c).

(** No field of the state is [NaN]. *)
Definition no_nan (s : CameraState.t) : Prop :=
  is_nan (CameraState.x s) = false
  /\ is_nan (CameraState.y s) = false
  /\ is_nan (CameraState.angle s) = false
  /\ is_nan (CameraState.ratio s) = false.

(** The calls a camera receives. *)
Inductive call : Type :=
| call_setState (state : PartialState.t)
| call_enable
| call_disable.

Definition run_call (k : call) (c : t) : t :=
  match k with
  | call_setState state => fst (setState state c)
  | call_enable => enable c
  | call_disable => disable c
  end.

Definition run_calls (calls : list call) (c : t) : t :=
  fold_left (fun c k => run_call k c) calls c.

(** A camera whose bounds have been assigned, as [handleSettingsUpdate]
    assigns them. *)
Definition with_bounds (lo hi : option float) (c : t) : t :=
  set_maxRatio hi (set_minRatio lo c).

(** The specification's clamp: [min(max(ratio, minRatio), maxRatio)], each
    bound applied only where it is set. *)
Definition clamp (lo hi : option float) (ratio : float) : float :=
  match lo, hi with
  | None, None => ratio
  | Some l, None => Math_max ratio l
  | None, Some h => Math_min ratio h
  | Some l, Some h => Math_min (Math_max ratio l) h
  end.

(** The number a call supplies for a field, if it supplies one. *)
Definition supplied (v : value) : option float :=
  match v with VNum n => Some n | _ => None end.

(** The field-wise merge of the valid fields of one call over a state. *)
Definition merge (lo hi : option float) (s : CameraState.t) (state : PartialState.t)
  : CameraState.t :=
  CameraState.mk
    (default (CameraState.x s) (supplied (PartialState.x state)))
    (default (CameraState.y s) (supplied (PartialState.y state)))
    (default (CameraState.angle s) (supplied (PartialState.angle state)))
    (default (CameraState.ratio s) (clamp lo hi <$> supplied (PartialState.ratio state))).

(** The merge of a sequence of calls, in order, over the default state. *)
Definition merged (lo hi : option float) (calls : list PartialState.t) : CameraState.t :=
  fold_left (merge lo hi) calls default_state.

(** The last ratio a sequence of calls supplies, if any does. *)
Definition last_ratio (calls : list PartialState.t) : option float :=
  last (omap (fun state => supplied (PartialState.ratio state)) calls).

(** A camera whose [x] is [NaN], after [setState({x: NaN})]. *)
Definition nan_camera : t :=
  fst (setState (PartialState.mk (VNum nan) VUndefined VUndefined VUndefined) new).

End CameraSpec.

(** ** For the renderer *)

Module SigmaSpec.

Import JS Obj Sigma.

Section Notions.

Context {U : Utils}.

(** How often the scheduler was asked for a frame, [process] was entered,
    and a render was begun and ended. *)
Definition requests (w : world) : nat := occurrences is_RequestFrame (trace w).
Definition reprocesses (w : world) : nat := occurrences is_Processing (trace w).
Definition renders_begun (w : world) : nat := occurrences is_BeforeRender (trace w).
Definition renders_ended (w : world) : nat := occurrences is_AfterRender (trace w).

(** The events that none of the four counters counts. *)
Definition uncounted (ev : event) : bool :=
  negb (is_RequestFrame ev || is_Processing ev || is_BeforeRender ev || is_AfterRender ev).

(** From [w] to [w'] the scheduler was left alone: the queue, the next
    handle, the stored handle and the four counters are what they were. *)
Definition steady (w w' : world) : Prop :=
  frames w' = frames w
  /\ nextHandle w' = nextHandle w
  /\ renderFrame (this w') = renderFrame (this w)
  /\ requests w' = requests w
  /\ reprocesses w' = reprocesses w
  /\ renders_begun w' = renders_begun w
  /\ renders_ended w' = renders_ended w.

(** A method that leaves the scheduler alone, whether it returns or
    throws. *)
Definition keeps {A : Type} (m : M A) : Prop := forall w, steady w (final (m w)).

(** Whether a method returned. *)
Definition returned {A : Type} (r : result A) : bool :=
  match r with Ok _ _ => true | Throw _ _ => false end.

(** What a method threw, if it threw. *)
Definition thrown {A : Type} (r : result A) : option error :=
  match r with Ok _ _ => None | Throw e _ => Some e end.

(** Whether the node display-data cache gives a record for [key]. *)
Definition cached (key : string) (w : world) : bool :=
  match Dict.get key (nodeDataCache (this w)) with Dict.Entry _ => true | _ => false end.

(** The position and the color in the record that [getNodeDisplayData(key)]
    returns a copy of, if it returns one. *)
Definition displayed (key : string) (w : world) : option (value * value * value) :=
  match getNodeDisplayData key (this w) with
  | Some (Dict.Entry data) => Some (get data "x", get data "y", get data "color")
  | _ => None
  end.

(** [1] if the event is counted by [p], [0] otherwise. *)
Definition bump (p : event -> bool) (ev : event) : nat := if p ev then 1 else 0.

(** The reprocess that [_refresh] decides on. *)
Definition reprocess_if_needed (s : t) : M unit :=
  if needToProcess s then process false
  else if needToSoftProcess s then process true
  else mret tt.

(** The world in which the callback of a frame starts: the frame has left
    the queue. *)
Definition fired (w : world) : world :=
  mkWorld (this w) (offsetWidth w) (offsetHeight w) (devicePixelRatio w) (tl (frames w))
          (nextHandle w) (trace w).

(** Whether a sequence asks for a reprocess: [scheduleRefresh] does,
    [_scheduleRefresh] on its own does not. *)
Definition asks_reprocess (calls : list schedule_call) : bool :=
  existsb (fun c => match c with public_scheduleRefresh => true | _ => false end) calls.

(** One defaulting step: [k] is set to [v] when [missing] says so. *)
Definition default_to (k : string) (v : value) (missing : object -> bool) (data : object)
  : object :=
  if missing data then <[k := v]> data else data.

(** The step that turns the label into a string or null. *)
Definition label_to_string (data : object) : object :=
  if negb (strict_equal (get data "label") VUndefined)
     && negb (strict_equal (get data "label") VNull)
  then <["label" := VStr ("" ++ to_string (get data "label"))]> data
  else <["label" := VNull]> data.

(** [applyNodeDefaults], once the position check has passed, as the
    sequence of its steps. *)
Definition node_defaults (settings : Settings.t) (data : object) : object :=
  default_to "zIndex" (VNum 0) (fun d => negb (truthy (get d "zIndex")))
    (default_to "type" (VStr (Settings.defaultNodeType settings))
       (fun d => negb (truthy (get d "type")) || strict_equal (get d "type") (VStr ""))
       (default_to "forceLabel" (VBool false) (fun d => negb (hasOwnProperty d "forceLabel"))
          (default_to "highlighted" (VBool false)
             (fun d => negb (hasOwnProperty d "highlighted"))
             (default_to "hidden" (VBool false) (fun d => negb (hasOwnProperty d "hidden"))
                (default_to "size" (VNum 2) (fun d => negb (truthy (get d "size")))
                   (label_to_string
                      (default_to "label" VNull
                         (fun d => negb (truthy (get d "label"))
                                   && negb (strict_equal (get d "label") (VStr "")))
                         (default_to "color" (VStr (Settings.defaultNodeColor settings))
                            (fun d => negb (truthy (get d "color"))) data)))))))).

(** The fields of [NodeDisplayData]. *)
Definition display_fields : list string :=
  ["x"; "y"; "color"; "label"; "size"; "hidden"; "highlighted"; "forceLabel"; "type";
   "zIndex"].

(** The attributes the display data of a node is made from: its own, or
    what the reducer makes of them. *)
Definition reduced (settings : Settings.t) (node : string * object) : object :=
  match Settings.nodeReducer settings with
  | Some nodeReducer => nodeReducer (fst node) (snd node)
  | None => snd node
  end.

(** The node has some [x] and some [y] of its own. *)
Definition positioned (settings : Settings.t) (node : string * object) : bool :=
  hasOwnProperty (reduced settings node) "x" && hasOwnProperty (reduced settings node) "y".

End Notions.

End SigmaSpec.

(* ===================================================================== *)
(** * Facts about binary64 comparison *)
(* ===================================================================== *)

Module FloatFacts.

(** The comparison of two numbers, [None] when one of them is [NaN]. *)
Definition fcmp (a b : float) : option comparison :=
  SFcompare (Prim2SF a) (Prim2SF b).

Lemma SFcompare_swap (a b : spec_float) :
  SFcompare b a = CompOpp <$> SFcompare a b.
Proof.
  destruct a as [sa|sa| |sa ma ea], b as [sb|sb| |sb mb eb]; simpl; try reflexivity;
    try (destruct sa; reflexivity); try (destruct sb; reflexivity);
    try (destruct sa, sb; reflexivity).
  destruct sa, sb; simpl; try reflexivity; f_equal;
    rewrite (Z.compare_antisym ea eb); destruct (ea ?= eb)%Z; simpl; try reflexivity;
    change (PosDef.Pos.compare_cont Eq) with Pos.compare;
    rewrite (Pos.compare_antisym ma mb); destruct (ma ?= mb)%positive; reflexivity.
Qed.

Lemma SFcompare_lt_trans (a b c : spec_float) :
  SFcompare a b = Some Lt -> SFcompare b c = Some Lt -> SFcompare a c = Some Lt.
Proof.
  destruct a as [sa|sa| |sa ma ea], b as [sb|sb| |sb mb eb], c as [sc|sc| |sc mc ec];
    simpl; try discriminate; try tauto;
    try (destruct sa; simpl; try discriminate; try tauto; fail);
    try (destruct sb; simpl; try discriminate; try tauto; fail);
    try (destruct sc; simpl; try discriminate; try tauto; fail);
    try (destruct sa, sb; simpl; try discriminate; try tauto; fail);
    try (destruct sa, sc; simpl; try discriminate; try tauto; fail);
    try (destruct sb, sc; simpl; try discriminate; try tauto; fail);
    try (destruct sa, sb, sc; simpl; try discriminate; try tauto; fail).
  change (PosDef.Pos.compare_cont Eq) with Pos.compare.
  destruct sa, sb, sc; simpl; try discriminate; try tauto;
    destruct (Z.compare_spec ea eb), (Z.compare_spec eb ec), (Z.compare_spec ea ec);
    try discriminate; try lia; try reflexivity; subst;
    destruct (Pos.compare_spec ma mb), (Pos.compare_spec mb mc), (Pos.compare_spec ma mc);
    simpl; try discriminate; try lia; try reflexivity.
Qed.

(** Two numbers that compare equal compare alike with any third one. *)
Lemma SFcompare_eq_l (a b c : spec_float) :
  SFcompare a b = Some Eq -> SFcompare a c = SFcompare b c.
Proof.
  destruct a as [sa|sa| |sa ma ea], b as [sb|sb| |sb mb eb];
    simpl; try discriminate; try (destruct sa; discriminate); try (destruct sb; discriminate).
  - reflexivity.
  - destruct sa, sb; try discriminate; reflexivity.
  - change (PosDef.Pos.compare_cont Eq) with Pos.compare.
    destruct sa, sb; try discriminate;
      destruct (Z.compare_spec ea eb); try discriminate;
      destruct (Pos.compare_spec ma mb); try discriminate; subst; reflexivity.
Qed.

Lemma SFcompare_refl (a : spec_float) :
  a <> S754_nan -> SFcompare a a = Some Eq.
Proof.
  destruct a as [sa|sa| |sa ma ea]; simpl; try congruence.
  - destruct sa; reflexivity.
  - change (PosDef.Pos.compare_cont Eq) with Pos.compare.
    rewrite Z.compare_refl, Pos.compare_refl. destruct sa; reflexivity.
Qed.

Lemma SFcompare_None (a b : spec_float) :
  SFcompare a b = None <-> a = S754_nan \/ b = S754_nan.
Proof.
  destruct a as [sa|sa| |sa ma ea], b as [sb|sb| |sb mb eb]; simpl;
    split; intros Hn; try discriminate; try tauto;
    destruct Hn; discriminate.
Qed.

Lemma ltb_fcmp (a b : float) :
  (a <? b)%float = match fcmp a b with Some Lt => true | _ => false end.
Proof. rewrite FloatAxioms.ltb_spec. reflexivity. Qed.

Lemma leb_fcmp (a b : float) :
  (a <=? b)%float = match fcmp a b with Some Lt | Some Eq => true | _ => false end.
Proof. rewrite FloatAxioms.leb_spec. unfold SFleb, fcmp. destruct (SFcompare _ _) as [[]|]; reflexivity. Qed.

Lemma eqb_fcmp (a b : float) :
  (a =? b)%float = match fcmp a b with Some Eq => true | _ => false end.
Proof. rewrite FloatAxioms.eqb_spec. reflexivity. Qed.

Lemma is_nan_false (a : float) : is_nan a = false <-> Prim2SF a <> S754_nan.
Proof.
  unfold is_nan. rewrite eqb_fcmp. unfold fcmp. split.
  - intros Hn Ha. rewrite Ha in Hn. discriminate.
  - intros Ha. rewrite SFcompare_refl by assumption. reflexivity.
Qed.

Lemma is_nan_true (a : float) : is_nan a = true <-> Prim2SF a = S754_nan.
Proof.
  split.
  - intros Hn. destruct (Prim2SF a) eqn:Ea; try reflexivity;
      assert (Hf : is_nan a = false) by (apply is_nan_false; rewrite Ea; discriminate);
      congruence.
  - intros Ha. destruct (is_nan a) eqn:En; [reflexivity|].
    apply is_nan_false in En. contradiction.
Qed.

(** Two numbers of which neither is [NaN] are comparable. *)
Lemma fcmp_Some (a b : float) :
  is_nan a = false -> is_nan b = false -> exists c, fcmp a b = Some c.
Proof.
  intros Ha Hb. destruct (fcmp a b) as [c|] eqn:E; [eauto|].
  apply SFcompare_None in E. apply is_nan_false in Ha, Hb. tauto.
Qed.

Lemma fcmp_not_nan (a b : float) (c : comparison) :
  fcmp a b = Some c -> is_nan a = false /\ is_nan b = false.
Proof.
  intros E. split; apply is_nan_false; intros Hn; unfold fcmp in E; rewrite Hn in E.
  - discriminate.
  - destruct (Prim2SF a); discriminate.
Qed.

Lemma fcmp_swap (a b : float) : fcmp b a = CompOpp <$> fcmp a b.
Proof. apply SFcompare_swap. Qed.

Lemma fcmp_refl (a : float) : is_nan a = false -> fcmp a a = Some Eq.
Proof. intros Ha. apply SFcompare_refl, is_nan_false, Ha. Qed.

Lemma fcmp_lt_trans (a b c : float) :
  fcmp a b = Some Lt -> fcmp b c = Some Lt -> fcmp a c = Some Lt.
Proof. apply SFcompare_lt_trans. Qed.

Lemma fcmp_eq_l (a b c : float) : fcmp a b = Some Eq -> fcmp a c = fcmp b c.
Proof. apply SFcompare_eq_l. Qed.

Lemma fcmp_eq_r (a b c : float) : fcmp a b = Some Eq -> fcmp c a = fcmp c b.
Proof.
  intros E. rewrite (fcmp_swap a c), (fcmp_swap b c). f_equal. apply fcmp_eq_l, E.
Qed.

(** [===] is reflexive away from [NaN]. *)
Lemma eqb_refl (a : float) : is_nan a = false -> (a =? a)%float = true.
Proof. intros Ha. rewrite eqb_fcmp, fcmp_refl by assumption. reflexivity. Qed.

Lemma leb_refl (a : float) : is_nan a = false -> (a <=? a)%float = true.
Proof. intros Ha. rewrite leb_fcmp, fcmp_refl by assumption. reflexivity. Qed.

Lemma leb_trans (a b c : float) :
  (a <=? b)%float = true -> (b <=? c)%float = true -> (a <=? c)%float = true.
Proof.
  rewrite !leb_fcmp. intros Hab Hbc.
  destruct (fcmp a b) as [[]|] eqn:Eab; try discriminate;
    destruct (fcmp b c) as [[]|] eqn:Ebc; try discriminate.
  - rewrite (fcmp_eq_l _ _ _ Eab), Ebc. reflexivity.
  - rewrite (fcmp_eq_l _ _ _ Eab), Ebc. reflexivity.
  - rewrite (fcmp_eq_r _ _ _ Ebc) in Eab. rewrite Eab. reflexivity.
  - rewrite (fcmp_lt_trans _ _ _ Eab Ebc). reflexivity.
Qed.

(** The difference of two numbers that compare equal is a zero, or [NaN]
    when both are the same infinity. *)
Lemma SFsub_of_equal (x y : spec_float) :
  SFcompare x y = Some Eq ->
  SF64sub x y = S754_nan \/ exists s, SF64sub x y = S754_zero s.
Proof.
  destruct x as [sx|sx| |sx mx ex], y as [sy|sy| |sy my ey]; cbn [SFcompare];
    try discriminate; try (destruct sx; discriminate); try (destruct sy; discriminate).
  - intros _. right. destruct sx, sy; cbn; eauto.
  - destruct sx, sy; try discriminate; intros _; left; reflexivity.
  - change (PosDef.Pos.compare_cont Eq) with Pos.compare.
    intros H. assert (sx = sy /\ ex = ey /\ mx = my) as (-> & -> & ->).
    { destruct sx, sy; try discriminate;
        destruct (Z.compare_spec ex ey); try discriminate;
        destruct (Pos.compare_spec mx my); try discriminate; auto. }
    right. exists false. unfold SF64sub, SFsub. rewrite Z.sub_diag. reflexivity.
Qed.

Lemma sub_of_equal (a b : float) :
  (a =? b)%float = true -> ((a - b =? 0) || is_nan (a - b))%float = true.
Proof.
  rewrite eqb_fcmp. unfold fcmp. intros H.
  destruct (SFcompare (Prim2SF a) (Prim2SF b)) as [[]|] eqn:E; try discriminate.
  destruct (SFsub_of_equal _ _ E) as [Hn | [s Hz]]; apply orb_true_iff.
  - right. apply is_nan_true. rewrite sub_spec. exact Hn.
  - left. rewrite FloatAxioms.eqb_spec, sub_spec, Hz. reflexivity.
Qed.

End FloatFacts.

(* ===================================================================== *)
(** * Facts about [Math.max] and [Math.min] *)
(* ===================================================================== *)

Module JSFacts.

Import JS FloatFacts.

Lemma Math_max_nan_l (b : float) : Math_max nan b = nan.
Proof. reflexivity. Qed.

Lemma Math_min_nan_l (b : float) : Math_min nan b = nan.
Proof. reflexivity. Qed.

(** Away from [NaN], [Math.max] returns one of its arguments, and one that
    neither argument exceeds. *)
Lemma Math_max_spec (a b : float) :
  is_nan a = false -> is_nan b = false ->
  (Math_max a b = a \/ Math_max a b = b)
  /\ (a <=? Math_max a b)%float = true
  /\ (b <=? Math_max a b)%float = true.
Proof.
  intros Ha Hb. unfold Math_max. rewrite Ha, Hb. cbn [orb].
  rewrite !ltb_fcmp. destruct (fcmp_Some a b Ha Hb) as [c E].
  pose proof (fcmp_swap a b) as Es. rewrite E in Es. cbn in Es.
  pose proof (fcmp_refl a Ha) as Ra. pose proof (fcmp_refl b Hb) as Rb.
  rewrite E, Es. destruct c; cbn [CompOpp].
  - destruct (classify a); rewrite ?leb_fcmp, ?E, ?Es, ?Ra, ?Rb; auto.
  - rewrite !leb_fcmp, E, Rb. auto.
  - rewrite !leb_fcmp, Es, Ra. auto.
Qed.

(** Away from [NaN], [Math.min] returns one of its arguments, and one that
    exceeds neither. *)
Lemma Math_min_spec (a b : float) :
  is_nan a = false -> is_nan b = false ->
  (Math_min a b = a \/ Math_min a b = b)
  /\ (Math_min a b <=? a)%float = true
  /\ (Math_min a b <=? b)%float = true.
Proof.
  intros Ha Hb. unfold Math_min. rewrite Ha, Hb. cbn [orb].
  rewrite !ltb_fcmp. destruct (fcmp_Some a b Ha Hb) as [c E].
  pose proof (fcmp_swap a b) as Es. rewrite E in Es. cbn in Es.
  pose proof (fcmp_refl a Ha) as Ra. pose proof (fcmp_refl b Hb) as Rb.
  rewrite E, Es. destruct c; cbn [CompOpp].
  - destruct (classify a); rewrite ?leb_fcmp, ?E, ?Es, ?Ra, ?Rb; auto.
  - rewrite !leb_fcmp, E, Ra. auto.
  - rewrite !leb_fcmp, Es, Rb. auto.
Qed.

Lemma Math_max_not_nan (a b : float) :
  is_nan a = false -> is_nan b = false -> is_nan (Math_max a b) = false.
Proof.
  intros Ha Hb. destruct (Math_max_spec a b Ha Hb) as [[-> | ->] _]; assumption.
Qed.

Lemma Math_min_not_nan (a b : float) :
  is_nan a = false -> is_nan b = false -> is_nan (Math_min a b) = false.
Proof.
  intros Ha Hb. destruct (Math_min_spec a b Ha Hb) as [[-> | ->] _]; assumption.
Qed.

(** A number strictly below another is the smaller of the two. *)
Lemma Math_min_gt (a b : float) : (b <? a)%float = true -> Math_min a b = b.
Proof.
  rewrite ltb_fcmp. intros Hlt.
  destruct (fcmp b a) as [[]|] eqn:E; try discriminate.
  destruct (fcmp_not_nan _ _ _ E) as [Hb Ha].
  pose proof (fcmp_swap b a) as Es. rewrite E in Es. cbn in Es.
  unfold Math_min. rewrite Ha, Hb. cbn [orb]. rewrite !ltb_fcmp, E, Es. reflexivity.
Qed.

(** Whatever is strictly below [b] is strictly below [Math.max(a, b)]. *)
Lemma Math_max_lt (a b c : float) :
  is_nan a = false -> (c <? b)%float = true -> (c <? Math_max a b)%float = true.
Proof.
  rewrite !ltb_fcmp. intros Ha Hlt.
  destruct (fcmp c b) as [[]|] eqn:Ecb; try discriminate.
  destruct (fcmp_not_nan _ _ _ Ecb) as [Hc Hb].
  unfold Math_max. rewrite Ha, Hb. cbn [orb]. rewrite !ltb_fcmp.
  destruct (fcmp_Some a b Ha Hb) as [k E].
  pose proof (fcmp_swap a b) as Es. rewrite E in Es. cbn in Es.
  rewrite E, Es. destruct k; cbn [CompOpp].
  - assert (Eca : fcmp c a = Some Lt).
    { rewrite (fcmp_eq_r a b c E). exact Ecb. }
    destruct (classify a); rewrite ?Ecb, ?Eca; reflexivity.
  - rewrite Ecb. reflexivity.
  - rewrite (fcmp_lt_trans c b a Ecb Es). reflexivity.
Qed.

End JSFacts.

(* ===================================================================== *)
(** * Properties of the camera *)
(* ===================================================================== *)

Module CameraFacts.

Import JS Camera CameraSpec FloatFacts JSFacts.

Lemma setState_enabled (state : PartialState.t) (c : t) :
  enabled c = true ->
  setState state c =
    (applied state c,
     if negb (hasState (applied state c) (getState c))
     then [Updated (getState (applied state c))] else []).
Proof.
  intros He. unfold setState. rewrite He. cbn [negb].
  assert (Hc : forall v : PartialState.t,
    (let c0 := set_previousState (Some (getState c)) c in
     let c1 := match PartialState.x v with VNum n => set_x n c0 | _ => c0 end in
     let c2 := match PartialState.y v with VNum n => set_y n c1 | _ => c1 end in
     let c3 := match PartialState.angle v with VNum n => set_angle n c2 | _ => c2 end in
     match PartialState.ratio v with VNum n => set_ratio n c3 | _ => c3 end)
    = mk (applied_field (x c) (PartialState.x v)) (applied_field (y c) (PartialState.y v))
         (applied_field (angle c) (PartialState.angle v))
         (applied_field (ratio c) (PartialState.ratio v))
         (minRatio c) (maxRatio c) (nextFrame c) (Some (getState c)) (enabled c)).
  { intros [vx vy va vr]. destruct vx, vy, va, vr; reflexivity. }
  cbv zeta in Hc. cbv zeta.
  rewrite (Hc (validateState (set_previousState (Some (getState c)) c) state)).
  change (validateState (set_previousState (Some (getState c)) c) state)
    with (validateState c state).
  fold (applied state c).
  destruct (negb (hasState (applied state c) (getState c))); reflexivity.
Qed.

Lemma setState_disabled (state : PartialState.t) (c : t) :
  enabled c = false -> setState state c = (c, []).
Proof. intros He. unfold setState. rewrite He. reflexivity. Qed.

Lemma validateState_fields (c : t) (state : PartialState.t) :
  validateState c state =
    PartialState.mk
      (match PartialState.x state with VNum n => VNum n | _ => VUndefined end)
      (match PartialState.y state with VNum n => VNum n | _ => VUndefined end)
      (match PartialState.angle state with VNum n => VNum n | _ => VUndefined end)
      (match PartialState.ratio state with
       | VNum n => VNum (getBoundedRatio c n) | _ => VUndefined end).
Proof.
  destruct state as [vx vy va vr]. destruct vx, vy, va, vr; reflexivity.
Qed.

Lemma hasState_false_iff (c : t) (s : CameraState.t) :
  hasState c s = false <-> differs (getState c) s.
Proof.
  unfold hasState, differs.
  cbn [getState CameraState.x CameraState.y CameraState.angle CameraState.ratio].
  destruct (strict_eq (x c) (CameraState.x s)), (strict_eq (y c) (CameraState.y s)),
    (strict_eq (ratio c) (CameraState.ratio s)), (strict_eq (angle c) (CameraState.angle s));
    cbn [andb]; intuition congruence.
Qed.

Lemma getBoundedRatio_clamp (c : t) (r : float) :
  getBoundedRatio c r = clamp (minRatio c) (maxRatio c) r.
Proof. unfold getBoundedRatio, clamp. destruct (minRatio c), (maxRatio c); reflexivity. Qed.

Lemma restates_hasState (c : t) (state : PartialState.t) :
  no_nan (getState c) -> restates c state -> hasState (applied state c) (getState c) = true.
Proof.
  intros (Hx & Hy & Ha & Hr) (Rx & Ry & Ra & Rr). cbn in Hx, Hy, Ha, Hr.
  unfold hasState, applied.
  cbn [x y angle ratio getState CameraState.x CameraState.y CameraState.angle CameraState.ratio].
  assert (Hf : forall v cur, is_nan cur = false -> restates_field v cur ->
                             strict_eq (applied_field cur v) cur = true).
  { intros v cur Hn Hv. destruct v; cbn in *; try exact (eqb_refl cur Hn). exact Hv. }
  rewrite !Hf by assumption. reflexivity.
Qed.

(** C1, as amended. On an enabled camera [setState] emits one [updated]
    notification or none; it emits one exactly when the state after the
    call differs from the state before it in one of the fields [x], [y],
    [angle], [ratio], two values being equal when they are [===]; and when
    no field of the current state is [NaN], a call whose validated fields
    all restate the current values emits nothing. *)
Theorem setState_emits_iff_differs (c : t) (state : PartialState.t) :
  enabled c = true ->
  let after := getState (fst (setState state c)) in
  let emitted := snd (setState state c) in
  (emitted = [Updated after] \/ emitted = [])
  /\ (emitted = [Updated after] <-> differs after (getState c))
  /\ (emitted = [] <-> ~ differs after (getState c))
  /\ (no_nan (getState c) -> restates c state -> emitted = []).
Proof.
  intros He. rewrite (setState_enabled state c He). cbn [fst snd].
  pose proof (hasState_false_iff (applied state c) (getState c)) as Hd.
  destruct (hasState (applied state c) (getState c)) eqn:Hs; cbn [negb].
  - assert (Hn : ~ differs (getState (applied state c)) (getState c)).
    { intros D. apply Hd in D. discriminate. }
    repeat split; auto; try discriminate; try tauto.
  - assert (D : differs (getState (applied state c)) (getState c)) by (apply Hd; reflexivity).
    repeat split; auto; try discriminate; try tauto.
    intros Hnan Hre. rewrite (restates_hasState c state Hnan Hre) in Hs. discriminate.
Qed.

(** A fresh camera told its own [x] again stays silent. *)
Lemma setState_emits_iff_differs_witness :
  enabled new = true
  /\ no_nan (getState new)
  /\ restates new (PartialState.mk (VNum 0.5%float) VUndefined VUndefined VUndefined)
  /\ snd (setState (PartialState.mk (VNum 0.5%float) VUndefined VUndefined VUndefined) new) = [].
Proof.
  assert (Hn : no_nan (getState new)) by (repeat split; reflexivity).
  assert (Hr : restates new (PartialState.mk (VNum 0.5%float) VUndefined VUndefined VUndefined))
    by (repeat split; reflexivity).
  split; [reflexivity|]. split; [exact Hn|]. split; [exact Hr|].
  exact (proj2 (proj2 (proj2
    (setState_emits_iff_differs new
       (PartialState.mk (VNum 0.5%float) VUndefined VUndefined VUndefined) eq_refl))) Hn Hr).
Defined.

(** C1 fails as stated: on a camera whose [x] is [NaN], [setState({y: 0.5})]
    restates the current [y] and supplies nothing else, and yet it emits
    [updated], because [NaN === NaN] is false. *)
Lemma setState_restating_emits_on_nan :
  enabled nan_camera = true
  /\ restates nan_camera (PartialState.mk VUndefined (VNum 0.5%float) VUndefined VUndefined)
  /\ snd (setState (PartialState.mk VUndefined (VNum 0.5%float) VUndefined VUndefined)
                   nan_camera)
     = [Updated (CameraState.mk nan 0.5%float 0%float 1%float)].
Proof. repeat split; reflexivity. Qed.

Lemma setStates_enabled (lo hi : option float) (calls : list PartialState.t) (c : t) :
  enabled c = true -> minRatio c = lo -> maxRatio c = hi ->
  getState (setStates calls c) = fold_left (merge lo hi) calls (getState c).
Proof.
  revert c. induction calls as [|state calls IH]; intros c He Hlo Hhi; [reflexivity|].
  unfold setStates in *. cbn [fold_left].
  rewrite (setState_enabled state c He). cbn [fst].
  rewrite IH; try reflexivity; try assumption. f_equal.
  subst lo hi. unfold applied, merge. rewrite validateState_fields.
  destruct state as [vx vy va vr].
  destruct vx, vy, va, vr; cbn -[getBoundedRatio clamp];
    rewrite ?getBoundedRatio_clamp; reflexivity.
Qed.

Lemma fold_merge_ratio (lo hi : option float) (calls : list PartialState.t)
    (s : CameraState.t) :
  CameraState.ratio (fold_left (merge lo hi) calls s)
  = default (CameraState.ratio s) (clamp lo hi <$> last_ratio calls).
Proof.
  induction calls as [|state calls IH] using rev_ind; [reflexivity|].
  rewrite fold_left_app. cbn [fold_left]. unfold last_ratio in *.
  rewrite omap_app, last_app.
  destruct state as [vx vy va vr].
  destruct vr; cbn -[clamp]; try exact IH. reflexivity.
Qed.

Lemma clamp_within (l h r : float) :
  (l <=? h)%float = true -> is_nan r = false ->
  (l <=? clamp (Some l) (Some h) r)%float = true
  /\ (clamp (Some l) (Some h) r <=? h)%float = true.
Proof.
  intros Hlh Hr. cbn [clamp].
  assert (Hl : is_nan l = false /\ is_nan h = false).
  { rewrite leb_fcmp in Hlh. destruct (fcmp l h) as [k|] eqn:E; [|discriminate].
    exact (fcmp_not_nan _ _ _ E). }
  destruct Hl as [Hl Hh].
  destruct (Math_max_spec r l Hr Hl) as (_ & _ & Hlm).
  pose proof (Math_max_not_nan r l Hr Hl) as Hm.
  destruct (Math_min_spec (Math_max r l) h Hm Hh) as ([E | E] & _ & Hvh).
  - split; [rewrite E; exact Hlm | exact Hvh].
  - split; [rewrite E; exact Hlh | exact Hvh].
Qed.

(** C2, as amended. After a sequence of [setState] calls on a fresh camera
    whose bounds have been assigned, [getState()] is the field-wise merge,
    over the default state, of the numeric fields each call supplied, in
    order, each supplied ratio clamped by the bounds. When both bounds are
    set, [minRatio <= maxRatio], and the last ratio supplied is not [NaN],
    the resulting ratio is within the bounds; when no call supplied a
    ratio it is the default [1], whatever the bounds. *)
Theorem setStates_merged (lo hi : option float) (calls : list PartialState.t) :
  let c := setStates calls (with_bounds lo hi new) in
  getState c = merged lo hi calls
  /\ (forall l h r,
        lo = Some l -> hi = Some h -> (l <=? h)%float = true ->
        last_ratio calls = Some r -> is_nan r = false ->
        (l <=? ratio c)%float = true /\ (ratio c <=? h)%float = true)
  /\ (last_ratio calls = None -> ratio c = 1%float).
Proof.
  cbv zeta.
  assert (Hs : getState (setStates calls (with_bounds lo hi new)) = merged lo hi calls).
  { rewrite (setStates_enabled lo hi); reflexivity. }
  assert (Hr : ratio (setStates calls (with_bounds lo hi new))
               = default 1%float (clamp lo hi <$> last_ratio calls)).
  { change (ratio (setStates calls (with_bounds lo hi new)))
      with (CameraState.ratio (getState (setStates calls (with_bounds lo hi new)))).
    rewrite Hs. unfold merged. rewrite fold_merge_ratio. reflexivity. }
  split; [exact Hs|]. split.
  - intros l h r -> -> Hlh Hlast Hnan. rewrite Hr, Hlast. cbn [fmap option_fmap option_map default].
    apply clamp_within; assumption.
  - intros Hlast. rewrite Hr, Hlast. reflexivity.
Qed.

(** Bounds [0.5] and [2], and the calls [setState({x: 3})], then
    [setState({ratio: 5})]: the ratio ends within the bounds. *)
Lemma setStates_merged_witness :
  (0.5 <=? 2)%float = true
  /\ last_ratio [PartialState.mk (VNum 3%float) VUndefined VUndefined VUndefined;
                 PartialState.mk VUndefined VUndefined VUndefined (VNum 5%float)]
     = Some 5%float
  /\ is_nan 5%float = false
  /\ (0.5 <=? ratio (setStates
                       [PartialState.mk (VNum 3%float) VUndefined VUndefined VUndefined;
                        PartialState.mk VUndefined VUndefined VUndefined (VNum 5%float)]
                       (with_bounds (Some 0.5%float) (Some 2%float) new)))%float = true
  /\ (ratio (setStates
               [PartialState.mk (VNum 3%float) VUndefined VUndefined VUndefined;
                PartialState.mk VUndefined VUndefined VUndefined (VNum 5%float)]
               (with_bounds (Some 0.5%float) (Some 2%float) new)) <=? 2)%float = true.
Proof.
  split; [reflexivity|]. split; [reflexivity|]. split; [reflexivity|].
  exact (proj1 (proj2 (setStates_merged (Some 0.5%float) (Some 2%float)
           [PartialState.mk (VNum 3%float) VUndefined VUndefined VUndefined;
            PartialState.mk VUndefined VUndefined VUndefined (VNum 5%float)]))
         0.5%float 2%float 5%float eq_refl eq_refl eq_refl eq_refl eq_refl).
Defined.

(** C2 fails as stated: with both bounds set, to [2] and [4], a sequence
    that supplies no ratio, here the single call [setState({x: 3})], leaves
    the ratio at its default [1], which is below [minRatio]. *)
Lemma setStates_ratio_out_of_bounds :
  ratio (setStates [PartialState.mk (VNum 3%float) VUndefined VUndefined VUndefined]
                   (with_bounds (Some 2%float) (Some 4%float) new)) = 1%float
  /\ (2 <=? 1)%float = false
  /\ (2 <=? 4)%float = true.
Proof. repeat split; reflexivity. Qed.

Lemma run_call_previousState (k : call) (c : t) :
  is_Some (previousState c) -> is_Some (previousState (run_call k c)).
Proof.
  intros Hp. destruct k as [state| |]; cbn [run_call]; try exact Hp.
  destruct (enabled c) eqn:He.
  - rewrite (setState_enabled state c He). cbn. eauto.
  - rewrite (setState_disabled state c He). exact Hp.
Qed.

Lemma run_calls_previousState (calls : list call) (c : t) :
  is_Some (previousState c) -> is_Some (previousState (run_calls calls c)).
Proof.
  revert c. induction calls as [|k calls IH]; intros c Hp; [exact Hp|].
  cbn [run_calls fold_left]. apply IH, run_call_previousState, Hp.
Qed.

(** C8, as amended. [getPreviousState()] never returns null: on a freshly
    constructed camera it returns the default state, which the constructor
    stored; after any sequence of [setState], [enable] and [disable] calls
    it still returns a state; and after a [setState] call on an enabled
    camera it returns the state that held immediately before that call. *)
Theorem getPreviousState_never_null :
  getPreviousState new = Some default_state
  /\ (forall calls : list call,
        exists s, getPreviousState (run_calls calls new) = Some s)
  /\ (forall (c : t) (state : PartialState.t),
        enabled c = true ->
        getPreviousState (fst (setState state c)) = Some (getState c)).
Proof.
  split; [reflexivity|]. split.
  - intros calls.
    destruct (run_calls_previousState calls new) as [s Hs]; [cbn; eauto|].
    unfold getPreviousState. rewrite Hs. eauto.
  - intros c state He. rewrite (setState_enabled state c He). reflexivity.
Qed.

(** After [setState({x: 2})] on a fresh camera, the previous state is the
    default one. *)
Lemma getPreviousState_never_null_witness :
  enabled new = true
  /\ getPreviousState
       (fst (setState (PartialState.mk (VNum 2%float) VUndefined VUndefined VUndefined) new))
     = Some (getState new).
Proof.
  split; [reflexivity|].
  exact (proj2 (proj2 getPreviousState_never_null) new
           (PartialState.mk (VNum 2%float) VUndefined VUndefined VUndefined) eq_refl).
Defined.

(** C8 fails as stated: on a freshly constructed camera, on which no state
    change has occurred, [getPreviousState()] returns the default state and
    not null. *)
Lemma getPreviousState_new_is_default :
  getPreviousState new = Some (CameraState.mk 0.5%float 0.5%float 0%float 1%float)
  /\ isAnimated new = false
  /\ getState new = CameraState.mk 0.5%float 0.5%float 0%float 1%float.
Proof. repeat split; reflexivity. Qed.

(** C9, as amended. [getBoundedRatio] applies the lower bound first, with
    [Math.max], and the upper bound second, with [Math.min], each only when
    it is a number. With both bounds set and [maxRatio < minRatio], the
    result is [maxRatio] for every ratio that is not [NaN]. *)
Theorem getBoundedRatio_min_then_max (c : t) (r : float) :
  getBoundedRatio c r
  = match minRatio c, maxRatio c with
    | None, None => r
    | Some lo, None => Math_max r lo
    | None, Some hi => Math_min r hi
    | Some lo, Some hi => Math_min (Math_max r lo) hi
    end
  /\ (forall lo hi,
        minRatio c = Some lo -> maxRatio c = Some hi ->
        (hi <? lo)%float = true -> is_nan r = false ->
        getBoundedRatio c r = hi).
Proof.
  split.
  - unfold getBoundedRatio. destruct (minRatio c), (maxRatio c); reflexivity.
  - intros lo hi Hlo Hhi Hlt Hr. unfold getBoundedRatio. rewrite Hlo, Hhi.
    apply Math_min_gt, Math_max_lt; assumption.
Qed.

(** Bounds [2] and [1], the wrong way round: a ratio of [5] comes out as
    [1]. *)
Lemma getBoundedRatio_min_then_max_witness :
  minRatio (with_bounds (Some 2%float) (Some 1%float) new) = Some 2%float
  /\ maxRatio (with_bounds (Some 2%float) (Some 1%float) new) = Some 1%float
  /\ (1 <? 2)%float = true
  /\ is_nan 5%float = false
  /\ getBoundedRatio (with_bounds (Some 2%float) (Some 1%float) new) 5%float = 1%float.
Proof.
  split; [reflexivity|]. split; [reflexivity|]. split; [reflexivity|]. split; [reflexivity|].
  exact (proj2 (getBoundedRatio_min_then_max
                  (with_bounds (Some 2%float) (Some 1%float) new) 5%float)
           2%float 1%float eq_refl eq_refl eq_refl eq_refl).
Defined.

(** C9 fails as stated: with [minRatio = 2] and [maxRatio = 1], the ratio
    [NaN] comes out as [NaN], which is not [maxRatio]. *)
Lemma getBoundedRatio_nan :
  getBoundedRatio (with_bounds (Some 2%float) (Some 1%float) new) nan = nan
  /\ strict_eq nan 1%float = false
  /\ (1 <? 2)%float = true.
Proof. repeat split; reflexivity. Qed.

End CameraFacts.

(* ===================================================================== *)
(** * Properties of the renderer *)
(* ===================================================================== *)

Module SigmaFacts.

Import JS Obj Sigma SigmaSpec.

(** ** Methods that leave the frame scheduler alone *)

Section Facts.

Context {U : Utils}.

Lemma occurrences_app (p : event -> bool) (a b : list event) :
  occurrences p (a ++ b) = occurrences p a + occurrences p b.
Proof. unfold occurrences. rewrite List.filter_app, length_app. reflexivity. Qed.

Lemma steady_refl (w : world) : steady w w.
Proof. repeat split. Qed.

Lemma steady_trans (w1 w2 w3 : world) : steady w1 w2 -> steady w2 w3 -> steady w1 w3.
Proof.
  intros (A1 & A2 & A3 & A4 & A5 & A6 & A7) (B1 & B2 & B3 & B4 & B5 & B6 & B7).
  repeat split; congruence.
Qed.

Lemma bind_run {A B : Type} (m : M A) (k : A -> M B) (w : world) :
  (m ≫= k) w = match m w with Ok a w' => k a w' | Throw e w' => Throw e w' end.
Proof. reflexivity. Qed.

Lemma keeps_ret {A : Type} (a : A) : keeps (mret a).
Proof. intros w. apply steady_refl. Qed.

Lemma keeps_bind {A B : Type} (m : M A) (k : A -> M B) :
  keeps m -> (forall a, keeps (k a)) -> keeps (m ≫= k).
Proof.
  intros Hm Hk w. rewrite bind_run. specialize (Hm w).
  destruct (m w) as [a w'|e w']; cbn [final] in *; [|exact Hm].
  eapply steady_trans; [exact Hm|apply Hk].
Qed.

Lemma keeps_read {A : Type} (f : t -> A) : keeps (read f).
Proof. intros w. apply steady_refl. Qed.

Lemma keeps_throw {A : Type} (e : error) : keeps (throw (A := A) e).
Proof. intros w. apply steady_refl. Qed.

Lemma keeps_write (f : t -> t) :
  (forall s, renderFrame (f s) = renderFrame s) -> keeps (write f).
Proof. intros Hf w. repeat split. cbn. apply Hf. Qed.

Lemma keeps_traced (ev : event) : uncounted ev = true -> keeps (traced ev).
Proof.
  intros Hev w. unfold steady, requests, reprocesses, renders_begun, renders_ended.
  cbn [traced final frames nextHandle this trace].
  rewrite !occurrences_app. unfold uncounted in Hev.
  destruct ev; try discriminate; cbn; repeat split; lia.
Qed.

Lemma keeps_when (b : bool) (m : M unit) : keeps m -> keeps (when b m).
Proof. intros Hm. destruct b; [exact Hm|apply keeps_ret]. Qed.

End Facts.

(** Discharges [keeps] goals over code built from the primitives. *)
Ltac keeps_step :=
  lazymatch goal with
  | |- keeps (_ ≫= _) => apply keeps_bind; [|intros]
  | |- keeps (mret _) => apply keeps_ret
  | |- keeps (read _) => apply keeps_read
  | |- keeps (throw _) => apply keeps_throw
  | |- keeps (write _) => apply keeps_write; intros; reflexivity
  | |- keeps (traced _) => apply keeps_traced; reflexivity
  | |- keeps (when _ _) => apply keeps_when
  | |- keeps (if ?b then _ else _) => destruct b
  | |- keeps (match ?x with _ => _ end) => destruct x
  | |- keeps (let '(_, _) := ?x in _) => destruct x
  end.

Ltac keeps_tac := repeat keeps_step.

(** ** Frame scheduling *)

Section Frames.

Context {U : Utils}.

Lemma keeps_process_nodes (nodes : list (string * object))
    (counts : gmap string (option nat)) (zExtent : value * value) :
  keeps (process_nodes nodes counts zExtent).
Proof.
  revert counts zExtent. induction nodes as [|[node attributes] rest IH]; intros counts zExtent;
    cbn [process_nodes]; keeps_tac; apply IH.
Qed.

Lemma keeps_allocate_programs (programs types : list string) (keepArrays : bool)
    (counts : gmap string (option nat)) :
  keeps (allocate_programs programs types keepArrays counts).
Proof.
  revert counts. induction types as [|type rest IH]; intros counts;
    cbn [allocate_programs]; keeps_tac; apply IH.
Qed.

Lemma keeps_process_programs (nodes : list string) (counts : gmap string (option nat)) :
  keeps (process_programs nodes counts).
Proof.
  revert counts. induction nodes as [|node rest IH]; intros counts;
    cbn [process_programs]; keeps_tac; apply IH.
Qed.

Lemma keeps_process_edges (edges : list (string * object))
    (counts : gmap string (option nat)) (zExtent : value * value) :
  keeps (process_edges edges counts zExtent).
Proof.
  revert counts zExtent. induction edges as [|[edge attributes] rest IH]; intros counts zExtent;
    cbn [process_edges]; keeps_tac; apply IH.
Qed.

Lemma occurrences_snoc (p : event -> bool) (evs : list event) (ev : event) :
  occurrences p (evs ++ [ev]) = occurrences p evs + bump p ev.
Proof. rewrite occurrences_app. unfold occurrences, bump. cbn. destruct (p ev); reflexivity. Qed.

(** A traced event followed by code that leaves the scheduler alone. *)
Lemma traced_then {A : Type} (ev : event) (m : M A) (w : world) :
  keeps m ->
  let w' := final ((traced ev ≫= fun _ => m) w) in
  frames w' = frames w
  /\ nextHandle w' = nextHandle w
  /\ renderFrame (this w') = renderFrame (this w)
  /\ requests w' = requests w + bump is_RequestFrame ev
  /\ reprocesses w' = reprocesses w + bump is_Processing ev
  /\ renders_begun w' = renders_begun w + bump is_BeforeRender ev
  /\ renders_ended w' = renders_ended w + bump is_AfterRender ev.
Proof.
  intros Hm. cbv zeta. rewrite bind_run. cbn [traced].
  match goal with |- context [final (m ?w1)] => destruct (Hm w1) as (F1 & F2 & F3 & F4 & F5 & F6 & F7) end.
  unfold requests, reprocesses, renders_begun, renders_ended in *.
  cbn [frames nextHandle this trace] in *.
  rewrite occurrences_snoc in F4, F5, F6, F7.
  repeat split; assumption.
Qed.

(** What [process] does to the scheduler: nothing, and it is counted once,
    whether it returns or throws. *)
Lemma process_effect (keepArrays : bool) (w : world) :
  let w' := final (process keepArrays w) in
  frames w' = frames w
  /\ nextHandle w' = nextHandle w
  /\ renderFrame (this w') = renderFrame (this w)
  /\ requests w' = requests w
  /\ reprocesses w' = S (reprocesses w)
  /\ renders_begun w' = renders_begun w
  /\ renders_ended w' = renders_ended w.
Proof.
  unfold process.
  match goal with
  | |- context [final ((traced ?ev ≫= fun _ => ?m) w)] =>
      assert (Hm : keeps m);
      [| pose proof (traced_then ev m w Hm) as He ]
  end.
  - repeat first
      [ keeps_step
      | apply keeps_process_nodes | apply keeps_allocate_programs
      | apply keeps_process_programs | apply keeps_process_edges ].
  - cbv zeta in He. cbn [bump is_RequestFrame is_Processing is_BeforeRender is_AfterRender] in He.
    cbv zeta. rewrite !Nat.add_0_r, Nat.add_1_r in He. exact He.
Qed.

Lemma _scheduleRefresh_pending (w : world) (h : positive) :
  renderFrame (this w) = Some h -> _scheduleRefresh w = Ok tt w.
Proof. intros Hp. unfold _scheduleRefresh. rewrite bind_run. cbn [read]. rewrite Hp. reflexivity. Qed.

Lemma _scheduleRefresh_idle (w : world) :
  renderFrame (this w) = None ->
  exists w',
    _scheduleRefresh w = Ok tt w'
    /\ frames w' = frames w ++ [nextHandle w]
    /\ renderFrame (this w') = Some (nextHandle w)
    /\ nextHandle w' = Pos.succ (nextHandle w)
    /\ requests w' = S (requests w)
    /\ reprocesses w' = reprocesses w
    /\ renders_begun w' = renders_begun w
    /\ renders_ended w' = renders_ended w.
Proof.
  intros Hp. unfold _scheduleRefresh. rewrite bind_run. cbn [read]. rewrite Hp.
  rewrite bind_run. cbn [requestFrame write].
  eexists. split; [reflexivity|].
  unfold requests, reprocesses, renders_begun, renders_ended. cbn [frames this trace nextHandle
    set_this renderFrame set_renderFrame].
  rewrite !occurrences_snoc.
  cbn [bump is_RequestFrame is_Processing is_BeforeRender is_AfterRender].
  repeat split; lia.
Qed.

Lemma run_schedule_pending (c : schedule_call) (w : world) (h : positive) :
  renderFrame (this w) = Some h ->
  exists w',
    run_schedule c w = Ok tt w'
    /\ frames w' = frames w /\ nextHandle w' = nextHandle w
    /\ renderFrame (this w') = Some h /\ trace w' = trace w
    /\ needToProcess (this w')
       = (needToProcess (this w) || asks_reprocess [c])
    /\ needToSoftProcess (this w') = needToSoftProcess (this w)
    /\ (c = internal_scheduleRefresh -> w' = w).
Proof.
  intros Hp. destruct c; cbn [run_schedule].
  - unfold scheduleRefresh. rewrite bind_run. cbn [write].
    erewrite _scheduleRefresh_pending by (cbn; exact Hp).
    eexists. split; [reflexivity|]. cbn. rewrite orb_true_r.
    repeat split; try assumption. discriminate.
  - rewrite (_scheduleRefresh_pending w h Hp). exists w. cbn. rewrite orb_false_r.
    repeat split; assumption.
Qed.

Lemma run_schedules_pending (calls : list schedule_call) (w : world) (h : positive) :
  renderFrame (this w) = Some h ->
  let w' := run_schedules calls w in
  frames w' = frames w /\ nextHandle w' = nextHandle w
  /\ renderFrame (this w') = Some h /\ trace w' = trace w
  /\ needToProcess (this w') = (needToProcess (this w) || asks_reprocess calls)
  /\ needToSoftProcess (this w') = needToSoftProcess (this w).
Proof.
  revert w. induction calls as [|c calls IH]; intros w Hp; cbv zeta.
  - cbn. rewrite orb_false_r. repeat split; assumption.
  - unfold run_schedules. cbn [fold_left].
    destruct (run_schedule_pending c w h Hp) as (w1 & -> & F1 & F2 & F3 & F4 & F5 & F6 & _).
    cbn [final]. destruct (IH w1 F3) as (G1 & G2 & G3 & G4 & G5 & G6).
    unfold run_schedules in *. cbn [asks_reprocess existsb] in *.
    rewrite G5, F5, orb_false_r, <- orb_assoc.
    repeat split; congruence.
Qed.

Lemma run_schedule_idle (c : schedule_call) (w : world) :
  renderFrame (this w) = None ->
  exists w',
    run_schedule c w = Ok tt w'
    /\ frames w' = frames w ++ [nextHandle w]
    /\ renderFrame (this w') = Some (nextHandle w)
    /\ requests w' = S (requests w)
    /\ reprocesses w' = reprocesses w
    /\ renders_begun w' = renders_begun w
    /\ renders_ended w' = renders_ended w
    /\ needToProcess (this w') = (needToProcess (this w) || asks_reprocess [c])
    /\ needToSoftProcess (this w') = needToSoftProcess (this w).
Proof.
  intros Hp. destruct c; cbn [run_schedule].
  - unfold scheduleRefresh. rewrite bind_run. cbn [write].
    match goal with |- context [_scheduleRefresh ?w0] =>
      destruct (_scheduleRefresh_idle w0) as (w' & E & F1 & F2 & F3 & F4 & F5 & F6 & F7);
      [exact Hp|]
    end.
    exists w'. split; [exact E|].
    unfold _scheduleRefresh in E. rewrite bind_run in E. cbn [read this set_this] in E.
    cbn [renderFrame set_needToProcess] in E. rewrite Hp in E.
    rewrite bind_run in E. cbn [requestFrame write] in E. injection E as <-.
    cbn. rewrite orb_true_r. repeat split; assumption.
  - destruct (_scheduleRefresh_idle w Hp) as (w' & E & F1 & F2 & F3 & F4 & F5 & F6 & F7).
    exists w'. split; [exact E|].
    unfold _scheduleRefresh in E. rewrite bind_run in E. cbn [read] in E. rewrite Hp in E.
    rewrite bind_run in E. cbn [requestFrame write] in E. injection E as <-.
    cbn. rewrite orb_false_r. repeat split; assumption.
Qed.


Lemma _refresh_unfold :
  _refresh =
    (s ← read id;
     reprocess_if_needed s;;
     write (set_needToProcess false);;
     write (set_needToSoftProcess false);;
     render).
Proof. reflexivity. Qed.

Lemma fire_unfold (w : world) (h : positive) (rest : list positive) :
  frames w = h :: rest -> fire w = frame_callback (fired w).
Proof. intros Hf. unfold fire, fired. rewrite Hf. reflexivity. Qed.

End Frames.

(** ** Graph events *)

Section Events.

Context {U : Utils}.

(** What [_scheduleRefresh] may change in the renderer is the stored
    handle and nothing else; it never throws. *)
Lemma _scheduleRefresh_this (w : world) :
  exists w' stored,
    _scheduleRefresh w = Ok tt w'
    /\ this w' = set_renderFrame stored (this w)
    /\ reprocesses w' = reprocesses w
    /\ renders_begun w' = renders_begun w.
Proof.
  destruct (renderFrame (this w)) as [h|] eqn:Hp.
  - rewrite (_scheduleRefresh_pending w h Hp). exists w, (Some h).
    split; [reflexivity|]. split; [|split; reflexivity].
    rewrite <- Hp. destruct (this w). reflexivity.
  - destruct (_scheduleRefresh_idle w Hp) as (w' & E & _ & _ & _ & _ & F5 & F6 & _).
    exists w', (Some (nextHandle w)). split; [exact E|].
    unfold _scheduleRefresh in E. rewrite bind_run in E. cbn [read] in E. rewrite Hp in E.
    rewrite bind_run in E. cbn [requestFrame write] in E. injection E as <-.
    repeat split; assumption.
Qed.


(** The graph reports that the node [key] was dropped, the handlers being
    bound: the own property [key] of the cache goes and nothing else of
    the cache does, the hovered node becomes null if it was [key], a full
    reprocess is marked, and nothing is reprocessed or rendered by the
    handler. What the cache still gives for [key] is what it inherits. *)
Lemma dropNodeGraphUpdate_effect (graph' : Graph.t) (key : string) (w : world) :
  graphBound (this w) = true ->
  let r := on_graph_event graph' (nodeDropped key) w in
  let w' := final r in
  returned r = true
  /\ nodeDataCache (this w') = Dict.remove key (nodeDataCache (this w))
  /\ Dict.own (nodeDataCache (this w')) !! key = None
  /\ (forall other : string,
        other <> key ->
        Dict.get other (nodeDataCache (this w')) = Dict.get other (nodeDataCache (this w)))
  /\ (hoveredNode (this w) = Some key -> hoveredNode (this w') = None)
  /\ (hoveredNode (this w) <> Some key -> hoveredNode (this w') = hoveredNode (this w))
  /\ edgeDataCache (this w') = edgeDataCache (this w)
  /\ reprocesses w' = reprocesses w
  /\ renders_begun w' = renders_begun w
  /\ needToProcess (this w') = true.
Proof.
  intros Hb. cbv zeta. unfold on_graph_event.
  rewrite bind_run. cbn [write]. rewrite bind_run. cbn [read this set_this].
  cbn [graphBound set_graph]. rewrite Hb. cbn [when graph_listener].
  unfold dropNodeGraphUpdate, graphUpdate.
  rewrite bind_run. cbn [write]. rewrite bind_run. cbn [read this set_this].
  rewrite bind_run.
  assert (Hcache : forall d : Dict.t,
            d = Dict.remove key (nodeDataCache (this w)) ->
            Dict.own d !! key = None
            /\ (forall other : string,
                  other <> key ->
                  Dict.get other d = Dict.get other (nodeDataCache (this w)))).
  { intros d ->. unfold Dict.remove. cbn [Dict.own]. split; [apply lookup_delete_eq|].
    intros other Hne. unfold Dict.get. cbn [Dict.own Dict.proto].
    rewrite lookup_delete_ne by congruence. reflexivity. }
  destruct (bool_decide (hoveredNode (set_nodeDataCache
              (Dict.remove key (nodeDataCache (set_graph graph' (this w))))
              (set_graph graph' (this w))) = Some key)) eqn:Hh;
    cbn [when write mret M_ret]; rewrite bind_run; cbn [write];
    match goal with |- context [_scheduleRefresh ?w0] =>
      destruct (_scheduleRefresh_this w0) as (w' & stored & -> & Et & Ep & Eb)
    end;
    cbn [final returned]; rewrite Et; unfold reprocesses, renders_begun in *;
    cbn [this set_this trace nodeDataCache edgeDataCache hoveredNode needToProcess
         set_renderFrame set_needToProcess set_hoveredNode set_nodeDataCache set_graph] in *;
    destruct (Hcache _ eq_refl) as [Hk Ho];
    [apply bool_decide_eq_true in Hh | apply bool_decide_eq_false in Hh];
    cbn [hoveredNode set_nodeDataCache set_graph] in Hh;
    repeat split; try assumption; try reflexivity; try congruence; try contradiction.
Qed.

(** Under the key ["__proto__"] the cache has no own property, whatever
    was assigned to it after [{}]: dropping that node removes nothing. *)
Lemma remove_proto (d : Dict.t) :
  Dict.own d !! "__proto__" = None -> Dict.remove "__proto__" d = d.
Proof.
  intros Hd. destruct d as [o p]. unfold Dict.remove. cbn [Dict.own Dict.proto] in *.
  rewrite delete_id by exact Hd. reflexivity.
Qed.

End Events.

(** ** Graph dimensions and coordinate conversion *)

Section Conversions.

Context {U : Utils}.

(** [d || 1] is never zero and never [NaN]. *)
Lemma or_num_one (d : float) :
  (or_num d 1 =? 0)%float = false /\ is_nan (or_num d 1) = false.
Proof.
  unfold or_num, truthy_num, truthy.
  destruct ((d =? 0)%float || is_nan d) eqn:E; cbn [negb].
  - split; reflexivity.
  - apply orb_false_iff in E. exact E.
Qed.

Lemma or_num_truthy (d e : float) : truthy_num d = true -> or_num d e = d.
Proof. intros Hd. unfold or_num. rewrite Hd. reflexivity. Qed.

Lemma or_num_falsy (d e : float) : truthy_num d = false -> or_num d e = e.
Proof. intros Hd. unfold or_num. rewrite Hd. reflexivity. Qed.

Lemma equal_falsy (a b : float) : strict_eq a b = true -> truthy_num (a - b) = false.
Proof.
  intros He. unfold truthy_num, truthy.
  rewrite (FloatFacts.sub_of_equal a b He). reflexivity.
Qed.

(** C10, as amended. Neither dimension that [getGraphDimensions] returns is
    zero, and neither is [NaN]. On each axis the dimension is [1] when
    [max - min] is zero or [NaN], which it is whenever [max === min], and
    [max - min] otherwise. *)
Theorem getGraphDimensions_nonzero (s : t) :
  let extent := match customBBox s with Some b => b | None => nodeExtent s end in
  let d := getGraphDimensions s in
  let dx := (snd (BBox.x extent) - fst (BBox.x extent))%float in
  let dy := (snd (BBox.y extent) - fst (BBox.y extent))%float in
  ((Dimensions.width d =? 0)%float = false /\ is_nan (Dimensions.width d) = false
   /\ (Dimensions.height d =? 0)%float = false /\ is_nan (Dimensions.height d) = false)
  /\ (strict_eq (snd (BBox.x extent)) (fst (BBox.x extent)) = true ->
      Dimensions.width d = 1%float)
  /\ (strict_eq (snd (BBox.y extent)) (fst (BBox.y extent)) = true ->
      Dimensions.height d = 1%float)
  /\ (truthy_num dx = false -> Dimensions.width d = 1%float)
  /\ (truthy_num dy = false -> Dimensions.height d = 1%float)
  /\ (truthy_num dx = true -> Dimensions.width d = dx)
  /\ (truthy_num dy = true -> Dimensions.height d = dy).
Proof.
  cbv zeta. unfold getGraphDimensions. cbn [Dimensions.width Dimensions.height].
  set (extent := match customBBox s with Some b => b | None => nodeExtent s end).
  split; [|repeat split].
  - destruct (or_num_one (snd (BBox.x extent) - fst (BBox.x extent))) as [Hx Hnx].
    destruct (or_num_one (snd (BBox.y extent) - fst (BBox.y extent))) as [Hy Hny].
    repeat split; assumption.
  - intros He. apply or_num_falsy, equal_falsy, He.
  - intros He. apply or_num_falsy, equal_falsy, He.
  - apply or_num_falsy.
  - apply or_num_falsy.
  - apply or_num_truthy.
  - apply or_num_truthy.
Qed.

(** Whatever the override holds besides, a matrix in it is used as it is,
    in both directions. *)
Lemma conversion_matrix_verbatim (p : Coordinates.t) (o : Override.t Matrix) (m : Matrix)
    (s : t) :
  Override.matrix o = Some m ->
  framedGraphToViewport p o s
  = framedGraphToViewport p (Override.mk None (Some m) None None None) s
  /\ viewportToFramedGraph p o s
     = viewportToFramedGraph p (Override.mk None (Some m) None None None) s.
Proof.
  intros Hm. unfold framedGraphToViewport, viewportToFramedGraph.
  rewrite Hm. cbn [Override.matrix]. split; reflexivity.
Qed.

(** With no matrix in the override, [framedGraphToViewport] recomputes one
    as soon as the camera state, the viewport dimensions or the graph
    dimensions are overridden, from every overridden value. *)
Lemma framedGraphToViewport_recomputes (p : Coordinates.t) (o : Override.t Matrix) (s : t) :
  Override.matrix o = None ->
  is_Some (Override.cameraState o) \/ is_Some (Override.viewportDimensions o)
    \/ is_Some (Override.graphDimensions o) ->
  framedGraphToViewport p o s
  = framedGraphToViewport p
      (Override.mk None (Some (recomputed_matrix o s false)) None None None) s.
Proof.
  intros Hm Ho. unfold framedGraphToViewport. rewrite Hm. cbn [Override.matrix].
  assert (Hb : bool_decide (is_Some (Override.cameraState o))
               || bool_decide (is_Some (Override.viewportDimensions o))
               || bool_decide (is_Some (Override.graphDimensions o)) = true).
  { destruct Ho as [H | [H | H]]; apply (bool_decide_eq_true_2 _) in H; rewrite H;
      rewrite ?orb_true_r; reflexivity. }
  rewrite Hb. reflexivity.
Qed.

(** C4, at the failing input. An override that holds the graph dimensions,
    with or without a padding, and nothing else: [viewportToFramedGraph]
    converts with the cached inverse matrix, as if the override held that
    matrix, and the graph dimensions it was given play no part; its
    sibling [framedGraphToViewport] converts with the matrix recomputed
    from them. *)
Theorem viewportToFramedGraph_ignores_graphDimensions (p : Coordinates.t)
    (g : Dimensions.t) (pad : option float) (s : t) :
  viewportToFramedGraph p (Override.mk None None None (Some g) pad) s
  = viewportToFramedGraph p (Override.mk None (Some (invMatrix s)) None None None) s
  /\ framedGraphToViewport p (Override.mk None None None (Some g) pad) s
     = framedGraphToViewport p
         (Override.mk None
            (Some (matrixFromCamera (Camera.getState (camera s)) (getDimensions s) g
                     (padding_of (Override.mk None None None (Some g) pad) s) false))
            None None None) s.
Proof. split; reflexivity. Qed.

End Conversions.

(** ** Node defaults and reprocessing *)

Section Defaults.

Context {U : Utils}.

Lemma applyNodeDefaults_unfold (settings : Settings.t) (key : string) (data : object) :
  applyNodeDefaults settings key data =
    if negb (hasOwnProperty data "x") || negb (hasOwnProperty data "y")
    then inl (NoPosition key)
    else inr (node_defaults settings data).
Proof. reflexivity. Qed.

Lemma hasOwnProperty_insert_eq (k : string) (v : value) (d : object) :
  hasOwnProperty (<[k := v]> d) k = true.
Proof. unfold hasOwnProperty. rewrite lookup_insert_eq. reflexivity. Qed.

Lemma hasOwnProperty_insert (k k' : string) (v : value) (d : object) :
  hasOwnProperty d k' = true -> hasOwnProperty (<[k := v]> d) k' = true.
Proof.
  unfold hasOwnProperty. intros Hd. destruct (decide (k = k')) as [->|Hne].
  - rewrite lookup_insert_eq. reflexivity.
  - rewrite lookup_insert_ne by exact Hne. exact Hd.
Qed.

Lemma truthy_has (d : object) (k : string) :
  truthy (get d k) = true -> hasOwnProperty d k = true.
Proof. unfold get, hasOwnProperty. destruct (d !! k); [reflexivity|discriminate]. Qed.

Lemma default_to_keeps (k k' : string) (v : value) (missing : object -> bool) (d : object) :
  hasOwnProperty d k' = true -> hasOwnProperty (default_to k v missing d) k' = true.
Proof.
  intros Hd. unfold default_to. destruct (missing d); [|exact Hd].
  apply hasOwnProperty_insert, Hd.
Qed.

Lemma default_to_sets (k : string) (v : value) (missing : object -> bool) (d : object) :
  (missing d = false -> hasOwnProperty d k = true) ->
  hasOwnProperty (default_to k v missing d) k = true.
Proof.
  intros Hd. unfold default_to. destruct (missing d); [|apply Hd; reflexivity].
  apply hasOwnProperty_insert_eq.
Qed.

Lemma default_to_lookup (k k' : string) (v : value) (missing : object -> bool) (d : object) :
  k <> k' -> default_to k v missing d !! k' = d !! k'.
Proof.
  intros Hne. unfold default_to. destruct (missing d); [|reflexivity].
  apply lookup_insert_ne, Hne.
Qed.

Lemma label_to_string_keeps (k' : string) (d : object) :
  hasOwnProperty d k' = true -> hasOwnProperty (label_to_string d) k' = true.
Proof.
  intros Hd. unfold label_to_string.
  destruct (_ && _); apply hasOwnProperty_insert, Hd.
Qed.

Lemma label_to_string_sets (d : object) : hasOwnProperty (label_to_string d) "label" = true.
Proof. unfold label_to_string. destruct (_ && _); apply hasOwnProperty_insert_eq. Qed.

Lemma label_to_string_lookup (k' : string) (d : object) :
  "label" <> k' -> label_to_string d !! k' = d !! k'.
Proof.
  intros Hne. unfold label_to_string. destruct (_ && _); apply lookup_insert_ne, Hne.
Qed.

(** A node on which [x] or [y] is missing is refused. *)
Lemma applyNodeDefaults_no_position (settings : Settings.t) (key : string) (data : object) :
  hasOwnProperty data "x" && hasOwnProperty data "y" = false ->
  applyNodeDefaults settings key data = inl (NoPosition key).
Proof.
  intros Hp. rewrite applyNodeDefaults_unfold.
  destruct (hasOwnProperty data "x"), (hasOwnProperty data "y"); try discriminate; reflexivity.
Qed.

(** A node that has an [x] and a [y], and so every node on which they are
    numbers, gets a complete record: every field of the display data is
    there, and [x] and [y] are what they were. *)
Lemma applyNodeDefaults_complete (settings : Settings.t) (key : string) (data : object) :
  hasOwnProperty data "x" && hasOwnProperty data "y" = true ->
  exists d,
    applyNodeDefaults settings key data = inr d
    /\ Forall (fun k => hasOwnProperty d k = true) display_fields
    /\ d !! "x" = data !! "x"
    /\ d !! "y" = data !! "y".
Proof.
  intros Hp. apply andb_true_iff in Hp. destruct Hp as [Hx Hy].
  exists (node_defaults settings data). rewrite applyNodeDefaults_unfold, Hx, Hy.
  split; [reflexivity|]. split; [|split].
  - unfold display_fields, node_defaults.
    repeat (apply Forall_cons; split);
      [ .. | apply Forall_nil; exact I ];
      repeat first
        [ assumption
        | apply label_to_string_sets
        | apply default_to_sets; cbv beta; intros Hm;
          first
            [ apply negb_false_iff in Hm; first [exact Hm | apply truthy_has, Hm]
            | apply orb_false_iff in Hm; destruct Hm as [Hm _];
              apply negb_false_iff in Hm; apply truthy_has, Hm ]
        | apply default_to_keeps
        | apply label_to_string_keeps ].
  - unfold node_defaults.
    rewrite !default_to_lookup, label_to_string_lookup, !default_to_lookup by discriminate.
    reflexivity.
  - unfold node_defaults.
    rewrite !default_to_lookup, label_to_string_lookup, !default_to_lookup by discriminate.
    reflexivity.
Qed.

Lemma thrown_bind {A B : Type} (m : M A) (k : A -> M B) (w : world) (e : error) :
  thrown (m w) = Some e -> thrown ((m ≫= k) w) = Some e.
Proof.
  intros Hm. rewrite bind_run. destruct (m w); [discriminate|exact Hm].
Qed.

(** The first loop of [process] stops at the first node without position
    and throws for it. *)
Lemma process_nodes_throws (st : Settings.t) (pre post : list (string * object))
    (key : string) (attributes : object) :
  forallb (positioned st) pre = true ->
  positioned st (key, attributes) = false ->
  forall (counts : gmap string (option nat)) (zExtent : value * value) (w : world),
    settings (this w) = st ->
    thrown (process_nodes (pre ++ (key, attributes) :: post) counts zExtent w)
    = Some (NoPosition key).
Proof.
  intros Hpre Hbad. induction pre as [|[node attr] pre IH]; intros counts zExtent w Hs.
  - cbn [app process_nodes]. rewrite bind_run. cbn [read]. rewrite Hs.
    change (match Settings.nodeReducer st with
            | Some nodeReducer => nodeReducer key attributes
            | None => attributes
            end) with (reduced st (key, attributes)).
    rewrite (applyNodeDefaults_no_position st key _ Hbad). reflexivity.
  - cbn [forallb] in Hpre. apply andb_true_iff in Hpre. destruct Hpre as [Hn Hpre].
    cbn [app process_nodes]. rewrite bind_run. cbn [read]. rewrite Hs.
    change (match Settings.nodeReducer st with
            | Some nodeReducer => nodeReducer node attr
            | None => attr
            end) with (reduced st (node, attr)).
    destruct (applyNodeDefaults_complete st node _ Hn) as (d & -> & _).
    rewrite bind_run. cbn [read]. rewrite bind_run. cbn [write].
    rewrite bind_run.
    destruct (truthy (get (normalization_applyTo (normalizationFunction (this w)) d)
                          "forceLabel")); cbn [when write mret M_ret];
      apply (IH Hpre); exact Hs.
Qed.

(** [process] throws for the first node without position, and nothing
    catches it: [refresh()] throws it to its caller, and so does the
    callback of a frame that finds a reprocess marked. *)
Lemma process_throws (keepArrays : bool) (w : world) (pre post : list (string * object))
    (key : string) (attributes : object) :
  Graph.nodes (graph (this w)) = pre ++ (key, attributes) :: post ->
  forallb (positioned (settings (this w))) pre = true ->
  positioned (settings (this w)) (key, attributes) = false ->
  thrown (process keepArrays w) = Some (NoPosition key).
Proof.
  intros Hg Hpre Hbad. unfold process.
  rewrite bind_run. cbn [traced].
  rewrite bind_run. cbn [read this].
  rewrite bind_run. cbn [read this].
  do 5 (rewrite bind_run; cbn [write]).
  apply thrown_bind. rewrite Hg.
  apply (process_nodes_throws (settings (this w))); [exact Hpre|exact Hbad|reflexivity].
Qed.

Lemma refresh_throws (w : world) (pre post : list (string * object))
    (key : string) (attributes : object) :
  Graph.nodes (graph (this w)) = pre ++ (key, attributes) :: post ->
  forallb (positioned (settings (this w))) pre = true ->
  positioned (settings (this w)) (key, attributes) = false ->
  thrown (refresh w) = Some (NoPosition key)
  /\ (needToProcess (this w) = true -> thrown (frame_callback w) = Some (NoPosition key)).
Proof.
  intros Hg Hpre Hbad. split.
  - unfold refresh. rewrite bind_run. cbn [write].
    rewrite _refresh_unfold. rewrite bind_run. cbn [read id this set_this].
    apply thrown_bind. unfold reprocess_if_needed. cbn [needToProcess set_needToProcess].
    apply (process_throws false _ pre post key attributes); assumption.
  - intros Hn. unfold frame_callback. apply thrown_bind.
    rewrite _refresh_unfold. rewrite bind_run. cbn [read id].
    apply thrown_bind. unfold reprocess_if_needed. rewrite Hn.
    apply (process_throws false _ pre post key attributes); assumption.
Qed.

(** The callback of a frame whose reprocess throws: nothing is rendered
    and the callback is left before it clears the stored handle. *)
Lemma frame_callback_throwing (keepArrays : bool) (w w1 : world) (e : error) :
  needToProcess (this w) = negb keepArrays ->
  needToSoftProcess (this w) || negb keepArrays = true ->
  process keepArrays w = Throw e w1 ->
  frame_callback w = Throw e w1.
Proof.
  intros Hn Hs Hr. unfold frame_callback. rewrite _refresh_unfold.
  rewrite !bind_run. cbn [read id]. rewrite !bind_run. unfold reprocess_if_needed.
  rewrite Hn. destruct keepArrays; cbn [negb] in *.
  - rewrite orb_false_r in Hs. rewrite Hs. rewrite Hr. reflexivity.
  - rewrite Hr. reflexivity.
Qed.

(** The first loop of [process] throws when some node has no [x] or no
    [y]. *)
Lemma process_nodes_unpositioned (st : Settings.t) (nodes : list (string * object)) :
  forallb (positioned st) nodes = false ->
  forall (counts : gmap string (option nat)) (zExtent : value * value) (w : world),
    settings (this w) = st ->
    returned (process_nodes nodes counts zExtent w) = false.
Proof.
  induction nodes as [|[node attr] nodes IH]; intros Hp counts zExtent w Hs; [discriminate|].
  cbn [forallb] in Hp. cbn [process_nodes]. rewrite bind_run. cbn [read]. rewrite Hs.
  change (match Settings.nodeReducer st with
          | Some nodeReducer => nodeReducer node attr
          | None => attr
          end) with (reduced st (node, attr)).
  destruct (positioned st (node, attr)) eqn:Hn.
  - destruct (applyNodeDefaults_complete st node _ Hn) as (d & -> & _).
    rewrite bind_run. cbn [read]. rewrite bind_run. cbn [write].
    rewrite bind_run.
    destruct (truthy (get (normalization_applyTo (normalizationFunction (this w)) d)
                          "forceLabel")); cbn [when write mret M_ret];
      apply IH; try exact Hp; exact Hs.
  - rewrite (applyNodeDefaults_no_position st node _ Hn). reflexivity.
Qed.

Lemma process_unpositioned (keepArrays : bool) (w : world) :
  forallb (positioned (settings (this w))) (Graph.nodes (graph (this w))) = false ->
  returned (process keepArrays w) = false.
Proof.
  intros Hp. unfold process.
  rewrite bind_run. cbn [traced].
  rewrite bind_run. cbn [read this].
  rewrite bind_run. cbn [read this].
  do 5 (rewrite bind_run; cbn [write]).
  rewrite bind_run.
  match goal with |- context [process_nodes ?n ?c ?z ?w1] =>
    pose proof (process_nodes_unpositioned (settings (this w)) n Hp c z w1 eq_refl) as Hr;
    destruct (process_nodes n c z w1); [discriminate|reflexivity]
  end.
Qed.

(** A frame fires on a renderer that stores its handle, a reprocess is
    marked, and some node of the graph has no [x] or no [y]: the callback
    throws, nothing is rendered, and the handle stays stored although the
    frame has left the queue. From then on scheduling requests no frame,
    whatever the calls. *)
Lemma throwing_frame_keeps_handle (w : world) (h : positive) (rest : list positive)
    (calls : list schedule_call) :
  frames w = h :: rest ->
  renderFrame (this w) = Some h ->
  needToProcess (this w) = true ->
  forallb (positioned (settings (this w))) (Graph.nodes (graph (this w))) = false ->
  let w' := final (fire w) in
  returned (fire w) = false
  /\ frames w' = rest
  /\ renderFrame (this w') = Some h
  /\ reprocesses w' = S (reprocesses w)
  /\ renders_begun w' = renders_begun w
  /\ requests (run_schedules calls w') = requests w
  /\ frames (run_schedules calls w') = rest.
Proof.
  intros Hf Hp Hn Hg. cbv zeta. rewrite (fire_unfold w h rest Hf).
  assert (Hr : returned (process false (fired w)) = false)
    by (apply process_unpositioned; exact Hg).
  destruct (process_effect false (fired w)) as (F1 & F2 & F3 & F4 & F5 & F6 & F7).
  cbv zeta in F1, F2, F3, F4, F5, F6, F7.
  destruct (process false (fired w)) as [[] w1|e w1] eqn:Hpr; [discriminate|].
  rewrite (frame_callback_throwing false (fired w) w1 e);
    [|exact Hn|apply orb_true_r|exact Hpr].
  cbn [final returned] in *.
  assert (E1 : frames (fired w) = rest) by (unfold fired; rewrite Hf; reflexivity).
  assert (Hp1 : renderFrame (this w1) = Some h) by (rewrite F3; exact Hp).
  destruct (run_schedules_pending calls w1 h Hp1) as (G1 & G2 & G3 & G4 & G5 & G6).
  unfold requests in *. rewrite G4.
  split; [reflexivity|]. split; [congruence|]. split; [exact Hp1|].
  split; [exact F5|]. split; [exact F6|]. split; [exact F4|]. congruence.
Qed.

End Defaults.

(** ** Examples on the sample renderers *)

Import Sample.

(** C5, at the failing inputs. A listener of [afterRender] calls
    [scheduleRefresh()], as an animation does. When the frame fires, the
    render ends, the listener runs and a second frame is requested and its
    handle stored; the callback of the first frame then sets the stored
    handle to null. A frame is pending and no handle is stored: the next
    [scheduleRefresh()] requests a frame token although one is pending,
    and two frames are queued. On the graph in which [B] has no [y], the
    frame fires, [process] throws and the callback never clears the handle:
    no frame is pending, nothing was rendered, and from then on two
    [scheduleRefresh()] calls in one tick request no frame token at
    all. *)
Theorem frame_handle_out_of_step :
  frames looping = [2%positive]
  /\ renderFrame (this looping) = None
  /\ renders_ended looping = 1
  /\ requests looping = 2
  /\ frames (run_schedules [public_scheduleRefresh] looping) = [2%positive; 3%positive]
  /\ renderFrame (this (run_schedules [public_scheduleRefresh] looping)) = Some 3%positive
  /\ requests (run_schedules [public_scheduleRefresh] looping) = 3
  /\ thrown (fire (run_schedules [public_scheduleRefresh] (world_of no_position)))
     = Some (NoPosition "B")
  /\ failed = final (fire (run_schedules [public_scheduleRefresh] (world_of no_position)))
  /\ frames failed = []
  /\ renderFrame (this failed) = Some 1%positive
  /\ reprocesses failed = 1
  /\ renders_begun failed = 0
  /\ requests failed = 1
  /\ requests (run_schedules [public_scheduleRefresh; public_scheduleRefresh] failed) = 1
  /\ frames (run_schedules [public_scheduleRefresh; public_scheduleRefresh] failed) = [].
Proof. repeat split; vm_compute; reflexivity. Qed.

(** The frame of the graph without position, through the general fact:
    the handle of the fired frame stays stored, and no sequence of
    scheduling calls requests a frame afterwards. *)
Lemma throwing_frame_keeps_handle_sample (calls : list schedule_call) :
  requests
    (run_schedules calls
       (final (fire (run_schedules [public_scheduleRefresh] (world_of no_position)))))
  = 1
  /\ frames
       (run_schedules calls
          (final (fire (run_schedules [public_scheduleRefresh] (world_of no_position)))))
     = [].
Proof.
  destruct (throwing_frame_keeps_handle
              (run_schedules [public_scheduleRefresh] (world_of no_position))
              1%positive [] calls)
    as (_ & _ & _ & _ & _ & Hr & Hf); try reflexivity.
  split; [rewrite Hr; reflexivity|exact Hf].
Qed.

Lemma hovering_nodeDataCache (key : string) (w : world) :
  nodeDataCache (this (hovering key w)) = nodeDataCache (this w).
Proof. reflexivity. Qed.

(** C7, at the failing input. The first node of the graph has the key
    ["__proto__"]. After a [refresh()] the cache gives its display data
    under that key. The node is hovered and dropped: the handler returns,
    the hovered node becomes null and a full reprocess is marked, and the
    cache is what it was: [getNodeDisplayData("__proto__")] still returns
    the display data of the dropped node. Dropping [B] instead removes the
    entry of [B]. *)
Theorem proto_node_stays_cached :
  displayed "__proto__" ready_proto = Some (VNum 0, VNum 0.5, VStr "#999")%float
  /\ displayed "B" ready_proto = Some (VNum 1, VNum 0.5, VStr "#999")%float
  /\ returned (on_graph_event only_B (nodeDropped "__proto__")
                 (hovering "__proto__" ready_proto)) = true
  /\ displayed "__proto__"
       (final (on_graph_event only_B (nodeDropped "__proto__")
                 (hovering "__proto__" ready_proto)))
     = Some (VNum 0, VNum 0.5, VStr "#999")%float
  /\ nodeDataCache
       (this (final (on_graph_event only_B (nodeDropped "__proto__")
                       (hovering "__proto__" ready_proto))))
     = nodeDataCache (this ready_proto)
  /\ hoveredNode
       (this (final (on_graph_event only_B (nodeDropped "__proto__")
                       (hovering "__proto__" ready_proto)))) = None
  /\ needToProcess
       (this (final (on_graph_event only_B (nodeDropped "__proto__")
                       (hovering "__proto__" ready_proto)))) = true
  /\ displayed "B"
       (final (on_graph_event only_proto (nodeDropped "B") (hovering "B" ready_proto)))
     = None.
Proof.
  split; [vm_compute; reflexivity|]. split; [vm_compute; reflexivity|].
  split; [vm_compute; reflexivity|]. split; [vm_compute; reflexivity|].
  split.
  - destruct (dropNodeGraphUpdate_effect only_B "__proto__" (hovering "__proto__" ready_proto)
                eq_refl) as (_ & Hc & _).
    rewrite Hc, hovering_nodeDataCache. apply remove_proto. vm_compute. reflexivity.
  - repeat split; vm_compute; reflexivity.
Qed.

(** Node [A] of the two-node graph is hovered and dropped: its entry goes,
    what the cache gives for [B] stays, and the hovered node becomes
    null. *)
Lemma dropNodeGraphUpdate_sample :
  displayed "A" (hovering "A" ready) = Some (VNum 0, VNum 0.5, VStr "#999")%float
  /\ displayed "A" (final (on_graph_event only_B (nodeDropped "A") (hovering "A" ready))) = None
  /\ Dict.get "B"
       (nodeDataCache (this (final (on_graph_event only_B (nodeDropped "A")
                                      (hovering "A" ready)))))
     = Dict.get "B" (nodeDataCache (this (hovering "A" ready)))
  /\ hoveredNode
       (this (final (on_graph_event only_B (nodeDropped "A") (hovering "A" ready)))) = None.
Proof.
  destruct (dropNodeGraphUpdate_effect only_B "A" (hovering "A" ready) eq_refl)
    as (_ & _ & _ & Ho & Hh & _).
  split; [vm_compute; reflexivity|]. split; [vm_compute; reflexivity|].
  split; [apply Ho; discriminate|exact (Hh eq_refl)].
Qed.

(** A custom bounding box flat in [x] and five high: the width is [1], the
    height [5]. *)
Lemma getGraphDimensions_nonzero_witness :
  strict_eq 2%float 2%float = true
  /\ truthy_num (5 - 0)%float = true
  /\ Dimensions.width (getGraphDimensions (boxed (BBox.mk (2, 2) (0, 5))%float)) = 1%float
  /\ Dimensions.height (getGraphDimensions (boxed (BBox.mk (2, 2) (0, 5))%float)) = (5 - 0)%float.
Proof.
  destruct (getGraphDimensions_nonzero (boxed (BBox.mk (2, 2) (0, 5))%float))
    as (_ & Hx & _ & _ & _ & _ & Hy).
  split; [reflexivity|]. split; [reflexivity|].
  split; [exact (Hx eq_refl)|exact (Hy eq_refl)].
Defined.

(** C10 fails as stated: in a custom bounding box whose [x] extent is
    [[NaN, 0]], [max] does not equal [min] and [max - min] is [NaN], and
    yet the width is [1], not [max - min]. *)
Lemma getGraphDimensions_nan_extent :
  strict_eq 0%float nan = false
  /\ (0 - nan)%float = nan
  /\ Dimensions.width (getGraphDimensions (boxed (BBox.mk (nan, 0) (0, 1))%float)) = 1%float.
Proof. repeat split; reflexivity. Qed.

(** On the sample renderer the cached matrices are those of a graph ten
    wide and one high in a viewport of 800 by 600. With the graph
    dimensions overridden to ten by ten, the corner [(800, 0)] of the
    viewport converts to what the cached inverse matrix gives, which is
    what no override at all gives: [(1.0556, 0.9167)], to four places.
    Adding the current camera state to the override, which overrides
    nothing, makes the graph dimensions count, and the point is another:
    [(1.2407, 1.0556)]. In the other direction the graph dimensions alone
    count. An override that holds a padding and nothing else is the
    opposite case: [viewportToFramedGraph] recomputes its matrix with it,
    [framedGraphToViewport] converts as with no override. *)
Lemma viewportToFramedGraph_sample :
  viewportToFramedGraph (Coordinates.mk 800 0)
    (Override.mk None None None (Some (Dimensions.mk 10 10)) None) (this ready)
  = viewportToFramedGraph (Coordinates.mk 800 0) Override.empty (this ready)
  /\ viewportToFramedGraph (Coordinates.mk 800 0)
       (Override.mk None None None (Some (Dimensions.mk 10 10)) None) (this ready)
     = multiplyVec2 (invMatrix (this ready)) (Coordinates.mk 1 1)
  /\ (let p := viewportToFramedGraph (Coordinates.mk 800 0)
                 (Override.mk None None None (Some (Dimensions.mk 10 10)) None) (this ready) in
      (1.03125 <? Coordinates.x p)%float && (Coordinates.x p <? 1.0625)%float
      && (0.90625 <? Coordinates.y p)%float && (Coordinates.y p <? 0.9375)%float = true)
  /\ (let p := viewportToFramedGraph (Coordinates.mk 800 0)
                 (Override.mk (Some (Camera.getState (camera (this ready)))) None None
                              (Some (Dimensions.mk 10 10)) None) (this ready) in
      (1.234375 <? Coordinates.x p)%float && (Coordinates.x p <? 1.25)%float
      && (1.03125 <? Coordinates.y p)%float && (Coordinates.y p <? 1.0625)%float = true)
  /\ framedGraphToViewport (Coordinates.mk 1 1)
       (Override.mk None None None (Some (Dimensions.mk 10 10)) None) (this ready)
     <> framedGraphToViewport (Coordinates.mk 1 1) Override.empty (this ready)
  /\ viewportToFramedGraph (Coordinates.mk 800 0)
       (Override.mk None None None None (Some 100%float)) (this ready)
     = Coordinates.mk 1.25 1.0625
  /\ framedGraphToViewport (Coordinates.mk 1 1)
       (Override.mk None None None None (Some 100%float)) (this ready)
     = framedGraphToViewport (Coordinates.mk 1 1) Override.empty (this ready).
Proof.
  split; [vm_compute; reflexivity|]. split; [vm_compute; reflexivity|].
  split; [vm_compute; reflexivity|]. split; [vm_compute; reflexivity|].
  split; [vm_compute; discriminate|].
  split; vm_compute; reflexivity.
Qed.

(** C6, at the failing input. Node [B] has an [x] that is present and is
    the string ["10"], not a number: [applyNodeDefaults] throws nothing
    and returns display data that still holds that string, and a full
    [refresh()] of a graph holding the node returns without throwing and
    caches it. *)
Theorem non_numeric_position_accepted :
  is_number (get {["x" := VStr "10"; "y" := VNum 0%float]} "x") = false
  /\ (match
        applyNodeDefaults Settings.DEFAULT_SETTINGS "B"
          {["x" := VStr "10"; "y" := VNum 0%float]}
      with
      | inr data => Some (get data "x", get data "y", get data "type")
      | inl _ => None
      end) = Some (VStr "10", VNum 0%float, VStr "circle")
  /\ thrown (refresh (world_of string_position)) = None
  /\ cached "B" (final (refresh (world_of string_position))) = true.
Proof. repeat split; vm_compute; reflexivity. Qed.

End SigmaFacts.
